(** * camtrap_banner_decoder: a shallow embedding and its properties

    The development follows [camtrap_banner_decoder.py]:
    - [PyStr]: the string operations of Python the program calls
      ([str.replace], [str.split], [str.strip], [str.count], [in],
      [str.lower]) and the fragment of [re] its four patterns need;
    - [PyPath]: [pathlib]'s [name], [suffix] and [with_suffix];
    - [Cv]: the OpenCV values the program builds (frames, slices, grayscale
      conversions), kept symbolic, with binary64 arithmetic for the two
      [int(...)] computations on frame dimensions;
    - the program itself: [banner_text_from_frame],
      [extract_banner_text_from_video], [extract_banner_text_from_image],
      [extract_date_time] and the file loop of [main], over a small
      state-and-exit monad.

    Text is modelled over 8-bit characters ([Ascii.ascii], read as the code
    points 0..255); on that range [\d] is exactly [0-9]. *)

From Stdlib Require Import Ascii String.
From Stdlib Require Import List ZArith Lia Bool Arith PeanoNat.
From Stdlib Require Import SpecFloat.
Import ListNotations.

(** A Python [str] is a sequence of characters. *)
Definition str := list ascii.

(** String literals of the source. *)
Definition lit (s : string) : str := list_ascii_of_string s.

Definition str_eq_dec : forall a b : str, {a = b} + {a <> b} :=
  list_eq_dec ascii_dec.

Definition str_eqb (a b : str) : bool :=
  if str_eq_dec a b then true else false.

(** Truthiness of a [str]: [if s:] holds for the non-empty strings. *)
Definition truthy (s : str) : bool :=
  match s with [] => false | _ :: _ => true end.

(* ------------------------------------------------------------------ *)
(** * Python strings *)

Module PyStr.

Definition code (c : ascii) : nat := nat_of_ascii c.

(** [\d] and [str.isdigit] below code point 256. *)
Definition isdigit (c : ascii) : bool :=
  (48 <=? code c) && (code c <=? 57).

(** [str.isspace] below code point 256: TAB..CR, FS..US, SPACE, NEL, NBSP. *)
Definition isspace (c : ascii) : bool :=
  let n := code c in
  ((9 <=? n) && (n <=? 13)) || ((28 <=? n) && (n <=? 32))
  || (n =? 133) || (n =? 160).

(** [str.lower] on one character below code point 256: [A-Z] and the
    Latin-1 capitals U+00C0..U+00DE (but the multiplication sign). *)
Definition lower_char (c : ascii) : ascii :=
  let n := code c in
  if ((65 <=? n) && (n <=? 90))
     || ((192 <=? n) && (n <=? 222) && negb (n =? 215))
  then ascii_of_nat (n + 32) else c.

Definition lower (s : str) : str := map lower_char s.

(** [s.startswith(p)] *)
Fixpoint startswith (p s : str) : bool :=
  match p, s with
  | [], _ => true
  | _ :: _, [] => false
  | a :: p', b :: s' => Ascii.eqb a b && startswith p' s'
  end.

(** [sub in s] *)
Fixpoint contains (sub s : str) : bool :=
  startswith sub s
  || match s with [] => false | _ :: s' => contains sub s' end.

(** [s.replace(old, new)] for a non-empty [old]: occurrences are replaced
    from the left and do not overlap. [skip] counts the characters of an
    occurrence still to be dropped. *)
Fixpoint replace_from (old new s : str) (skip : nat) : str :=
  match s with
  | [] => []
  | c :: s' =>
      match skip with
      | S k => replace_from old new s' k
      | 0 =>
          if startswith old s
          then new ++ replace_from old new s' (length old - 1)
          else c :: replace_from old new s' 0
      end
  end.

(** [s.replace(old, new)]; with an empty [old], [new] is inserted before
    every character and at the end. *)
Definition replace (old new s : str) : str :=
  match old with
  | [] => new ++ flat_map (fun c => c :: new) s
  | _ :: _ => replace_from old new s 0
  end.

(** [s.count(sub)] for a non-empty [sub]: occurrences that do not overlap. *)
Fixpoint count_from (sub s : str) (skip : nat) : nat :=
  match s with
  | [] => 0
  | _ :: s' =>
      match skip with
      | S k => count_from sub s' k
      | 0 =>
          if startswith sub s
          then S (count_from sub s' (length sub - 1))
          else count_from sub s' 0
      end
  end.

Definition count (sub s : str) : nat :=
  match sub with
  | [] => S (length s)
  | _ :: _ => count_from sub s 0
  end.

(** [s.split(sep)] for a one-character separator: never an empty list. *)
Fixpoint split (sep : ascii) (s : str) : list str :=
  match s with
  | [] => [[]]
  | c :: s' =>
      if Ascii.eqb c sep then [] :: split sep s'
      else match split sep s' with
           | w :: ws => (c :: w) :: ws
           | [] => [[c]]
           end
  end.

Fixpoint lstrip (s : str) : str :=
  match s with
  | c :: s' => if isspace c then lstrip s' else s
  | [] => []
  end.

(** [s.strip()] *)
Definition strip (s : str) : str := rev (lstrip (rev (lstrip s))).

(** [sorted(l, key=len, reverse=True)]: a stable sort, so among tokens of
    equal length the earlier one stays first. *)
Fixpoint insert_by_len (x : str) (l : list str) : list str :=
  match l with
  | [] => [x]
  | y :: l' =>
      if length x <? length y then y :: insert_by_len x l'
      else x :: y :: l'
  end.

Definition sorted_by_len_desc (l : list str) : list str :=
  fold_right insert_by_len [] l.

End PyStr.

(* ------------------------------------------------------------------ *)
(** * The fragment of [re] used by the program *)

Module Re.

Inductive atom : Type :=
| Digit                 (* \d *)
| Chr (c : ascii).      (* a literal character *)

Inductive item : Type :=
| Times (n : nat) (a : atom)   (* a{n}; a literal is Times 1 *)
| Plus (a : atom).             (* a+, greedy *)

Definition regex := list item.

Definition accepts (a : atom) (c : ascii) : bool :=
  match a with
  | Digit => PyStr.isdigit c
  | Chr x => Ascii.eqb x c
  end.

(** [n] characters accepted by [a] at the head of [s]: the characters
    and what follows them. *)
Fixpoint take_n (a : atom) (n : nat) (s : str) : option (str * str) :=
  match n with
  | 0 => Some ([], s)
  | S n' =>
      match s with
      | c :: s' =>
          if accepts a c
          then match take_n a n' s' with
               | Some (m, r) => Some (c :: m, r)
               | None => None
               end
          else None
      | [] => None
      end
  end.

(** The text the pattern matches at the head of [s], found as a
    backtracking matcher finds it: [a+] first takes as many characters as
    it can and gives them back one at a time. *)
Fixpoint match_here (re : regex) (s : str) {struct re} : option str :=
  match re with
  | [] => Some []
  | Times n a :: re' =>
      match take_n a n s with
      | Some (m, r) =>
          match match_here re' r with
          | Some m' => Some (m ++ m')
          | None => None
          end
      | None => None
      end
  | Plus a :: re' =>
      let star :=
        fix star (s : str) : option str :=
          match s with
          | c :: s' =>
              if accepts a c
              then match star s' with
                   | Some m => Some (c :: m)
                   | None => match_here re' s
                   end
              else match_here re' s
          | [] => match_here re' s
          end in
      match s with
      | c :: s' =>
          if accepts a c
          then match star s' with
               | Some m => Some (c :: m)
               | None => None
               end
          else None
      | [] => None
      end
  end.

(** [re.search(re, s)], as [group(0)] of the leftmost match. *)
Fixpoint search (re : regex) (s : str) : option str :=
  match match_here re s with
  | Some m => Some m
  | None =>
      match s with
      | [] => None
      | _ :: s' => search re s'
      end
  end.

Definition chr (c : string) : item :=
  match lit c with
  | x :: _ => Times 1 (Chr x)
  | [] => Times 0 Digit
  end.

(** r"\d{2}-\d{2}-\d{4}" *)
Definition date_re : regex :=
  [Times 2 Digit; chr "-"; Times 2 Digit; chr "-"; Times 4 Digit].

(** r"\d{2}:\d{2}:\d{2}" *)
Definition time_re : regex :=
  [Times 2 Digit; chr ":"; Times 2 Digit; chr ":"; Times 2 Digit].

(** r" \d+F " *)
Definition temp_f_re : regex := [chr " "; Plus Digit; chr "F"; chr " "].

(** r" \d+C " *)
Definition temp_c_re : regex := [chr " "; Plus Digit; chr "C"; chr " "].

End Re.

(* ------------------------------------------------------------------ *)
(** * Results of a call *)

Inductive exn : Type :=
| IndexError
| ZeroDivisionError
| ValueError
| OverflowError
| FileNotFoundError
| OSError          (* an OSError other than FileNotFoundError *)
| CvError.         (* cv2.error *)

(** A call returns, raises an exception nobody catches, or leaves through
    [sys.exit()]. *)
Inductive outcome (A : Type) : Type :=
| Ret (a : A)
| Throw (e : exn)
| SysExit.

Arguments Ret {A} a.
Arguments Throw {A} e.
Arguments SysExit {A}.

Definition obind {A B} (o : outcome A) (k : A -> outcome B) : outcome B :=
  match o with
  | Ret a => k a
  | Throw e => Throw e
  | SysExit => SysExit
  end.

Declare Scope outcome_scope.
Delimit Scope outcome_scope with outcome.
Notation "x <~ o ;; k" := (obind o (fun x => k))
  (at level 61, o at next level, right associativity) : outcome_scope.

(** [l[i]] *)
Definition index {A} (l : list A) (i : nat) : outcome A :=
  match nth_error l i with
  | Some x => Ret x
  | None => Throw IndexError
  end.

(* ------------------------------------------------------------------ *)
(** * The banner field parser (the loop body of [extract_date_time]) *)

(** The dictionary [extract_date_time] returns on success. *)
Record info : Type := {
  text : str;
  cam_id : option str;
  date : str;
  time : str;
  temperature_c : option str;
  temperature_f : option str
}.

(** [extract_date_time] returns either the six-key dictionary or
    [{"error": ""}]. *)
Inductive data : Type :=
| Info (r : info)
| Error (msg : str).

(** [while "  " in text2: text2 = text2.replace("  ", " ")].
    Each turn shortens [text2], so its length is fuel enough
    (see [collapse_spaces_unfold]). *)
Fixpoint collapse_spaces_fuel (fuel : nat) (text2 : str) : str :=
  if PyStr.contains (lit "  ") text2 then
    match fuel with
    | 0 => text2
    | S n => collapse_spaces_fuel n (PyStr.replace (lit "  ") (lit " ") text2)
    end
  else text2.

Definition collapse_spaces (text2 : str) : str :=
  collapse_spaces_fuel (length text2) text2.

(** [text2.replace(t, "")] under [if t:], for [t] that may be [None]. *)
Definition remove_if_set (t : option str) (text2 : str) : str :=
  match t with
  | Some t => if truthy t then PyStr.replace t [] text2 else text2
  | None => text2
  end.

(** What one turn of the [for text in banner_text.split("\n")] loop does. *)
Inductive turn : Type :=
| Continue
| Return (d : data) (text2 : str).

(** Lines 172-245, for one [text]. *)
Definition scan_line (text : str) : outcome turn :=
  match Re.search Re.date_re text with
  | None => Ret Continue
  | Some raw_date =>
      let parts := PyStr.split "-" raw_date in
      (yyyy <~ index parts 2 ;;
       mm <~ index parts 0 ;;
       dd <~ index parts 1 ;;
       let date := yyyy ++ lit "-" ++ mm ++ lit "-" ++ dd in
       let flag_info := true in
       match Re.search Re.time_re text with
       | None => Ret Continue
       | Some raw_time =>
           let hhmmss := PyStr.replace (lit ":") [] raw_time in
           let temperature_f :=
             option_map PyStr.strip (Re.search Re.temp_f_re text) in
           let temperature_c :=
             option_map PyStr.strip (Re.search Re.temp_c_re text) in
           if flag_info then
             let text2 := text in
             let text2 :=
               if truthy date then PyStr.replace raw_date [] text2
               else text2 in
             let text2 :=
               if truthy hhmmss then PyStr.replace raw_time [] text2
               else text2 in
             let text2 := remove_if_set temperature_c text2 in
             let text2 := remove_if_set temperature_f text2 in
             let text2 := collapse_spaces text2 in
             let cam_id :=
               match PyStr.sorted_by_len_desc (PyStr.split " " text2) with
               | t :: _ => Some t
               | [] => None
               end in
             Ret (Return (Info {| text := text;
                                  cam_id := cam_id;
                                  date := date;
                                  time := hhmmss;
                                  temperature_c := temperature_c;
                                  temperature_f := temperature_f |}) text2)
           else Ret (Return (Error []) text)
       end)%outcome
  end.

(** The [for] loop over the lines, up to its first [return]; falling off
    the end is [None] here and [{"error": ""}] in [parse_banner_text]. *)
Fixpoint scan_lines (lines : list str) : outcome (option (data * str)) :=
  match lines with
  | [] => Ret None
  | text :: rest =>
      (t <~ scan_line text ;;
       match t with
       | Continue => scan_lines rest
       | Return d text2 => Ret (Some (d, text2))
       end)%outcome
  end.

Definition newline : ascii := ascii_of_nat 10.

(** Lines 165-247 as a function of [banner_text]. *)
Definition parse_banner_text (banner_text : option str) : outcome data :=
  match banner_text with
  | None => Ret (Error [])
  | Some banner_text =>
      (r <~ scan_lines (PyStr.split newline banner_text) ;;
       match r with
       | Some (d, _) => Ret d
       | None => Ret (Error [])
       end)%outcome
  end.

(* ------------------------------------------------------------------ *)
(** * Paths *)

(** A [pathlib.Path] of a file: the rendered parent directory and the final
    component. The paths of the program come from [Path(dir).glob("*")], so
    [str] and [Path] are inverse on them. *)
Record path : Type := { parent : str; name : str }.

Definition path_eq_dec : forall p q : path, {p = q} + {p <> q}.
Proof. decide equality; apply str_eq_dec. Defined.

Module PyPath.

(** [s.rfind(c)], [None] for -1. *)
Fixpoint rfind (c : ascii) (s : str) : option nat :=
  match s with
  | [] => None
  | x :: s' =>
      match rfind c s' with
      | Some i => Some (S i)
      | None => if Ascii.eqb x c then Some 0 else None
      end
  end.

(** [PurePath.suffix]: [name[i:]] for [i = name.rfind('.')] when
    [0 < i < len(name) - 1], otherwise the empty string. *)
Definition suffix (p : path) : str :=
  match rfind "." (name p) with
  | Some i =>
      if (0 <? i) && (i <? length (name p) - 1)
      then skipn i (name p) else []
  | None => []
  end.

(** [PurePath.with_suffix(suffix)] for a suffix that is a dot followed by
    letters; an empty name raises [ValueError]. *)
Definition with_suffix (p : path) (new_suffix : str) : outcome path :=
  match name p with
  | [] => Throw ValueError
  | _ :: _ =>
      let old_suffix := suffix p in
      if truthy old_suffix
      then Ret {| parent := parent p;
                  name := firstn (length (name p) - length old_suffix)
                                 (name p) ++ new_suffix |}
      else Ret {| parent := parent p; name := name p ++ new_suffix |}
  end.

Definition ends_with_sep (dir : str) : bool :=
  match rev dir with
  | c :: _ => Ascii.eqb c "/"
  | [] => false
  end.

(** [str(Path(dir) / component)] for one component. *)
Definition child (dir component : str) : str :=
  if str_eqb dir (lit ".") then component
  else if ends_with_sep dir then dir ++ component
  else dir ++ lit "/" ++ component.

(** [str(p)] *)
Definition to_str (p : path) : str := child (parent p) (name p).

(** The components of a relative path string: empty ones and ["."] are
    dropped when a [Path] is built. *)
Definition components (s : str) : list str :=
  filter (fun x => negb (str_eqb x [] || str_eqb x (lit ".")))
         (PyStr.split "/" s).

(** [Path(dir) / s] for a relative [s] with a final component: the
    components before the last extend the directory. *)
Definition joinpath (dir s : str) : path :=
  let parts := components s in
  {| parent := fold_left child (removelast parts) dir;
     name := last parts [] |}.

End PyPath.

(* ------------------------------------------------------------------ *)
(** * Binary64 arithmetic *)

(** Python's [float] is IEEE 754 binary64; [SpecFloat] gives its operations
    as functions on [Z]. *)
Module F64.

Definition prec : Z := 53.
Definition emax : Z := 1024.

Definition float := spec_float.

(** [float(z)] *)
Definition of_int (z : Z) : float := binary_normalize prec emax z 0 false.

Definition mul : float -> float -> float := SFmul prec emax.
Definition div : float -> float -> float := SFdiv prec emax.

(** [a / b] on two [int]s that binary64 represents exactly. *)
Definition truediv (a b : Z) : outcome float :=
  if (b =? 0)%Z then Throw ZeroDivisionError
  else Ret (div (of_int a) (of_int b)).

(** [int(x)]: truncation towards zero. *)
Definition to_int (x : float) : outcome Z :=
  match x with
  | S754_zero _ => Ret 0%Z
  | S754_finite s m e =>
      let a := match e with
               | Zneg k => Z.shiftr (Zpos m) (Zpos k)
               | _ => Z.shiftl (Zpos m) e
               end in
      Ret (if s then Z.opp a else a)
  | S754_infinity _ => Throw OverflowError
  | S754_nan => Throw ValueError
  end.

(** The literal [0.15]: 0x1.3333333333333p-3. *)
Definition lit_0_15 : float := S754_finite false 5404319552844595 (-55).

End F64.

(* ------------------------------------------------------------------ *)
(** * OpenCV values *)

(** What the decoder and recognizer do with pixels is outside the program;
    the images it handles are kept as the expressions that build them. *)
Module Cv.

(** A colour image (three channels). *)
Inductive frame : Type :=
| Decoded (id : nat) (height width : Z)        (* from a decoder *)
| Resized (src : frame) (width height : Z)     (* cv2.resize(src, (width, height)) *)
| Reread (r : region)                          (* cv2.imread of a file written from r *)
with region : Type :=
| Slice (src : frame) (y0 y1 x0 x1 : Z).       (* src[y0:y1, x0:x1] *)

(** A grayscale image, made by [cv2.cvtColor] from a colour region. *)
Inductive gray : Type :=
| Gray (roi : region).

(** The extent of [a[start:stop]] on an axis of length [n]. *)
Definition clip (i n : Z) : Z :=
  let i := if (i <? 0)%Z then (i + n)%Z else i in
  Z.max 0 (Z.min i n).

Definition extent (start stop n : Z) : Z :=
  Z.max 0 (clip stop n - clip start n).

(** [frame.shape], as (height, width). *)
Fixpoint shape (f : frame) : Z * Z :=
  match f with
  | Decoded _ h w => (h, w)
  | Resized _ w h => (h, w)
  | Reread r => region_shape r
  end
with region_shape (r : region) : Z * Z :=
  match r with
  | Slice src y0 y1 x0 x1 =>
      let '(h, w) := shape src in
      (extent y0 y1 h, extent x0 x1 w)
  end.

(** An image with no row or no column; OpenCV refuses to convert or
    write one. *)
Definition is_empty (r : region) : bool :=
  let '(h, w) := region_shape r in ((h <=? 0) || (w <=? 0))%Z.

(** The JPEG encoder takes at most 65500 rows and 65500 columns. *)
Definition fits_jpeg (r : region) : bool :=
  let '(h, w) := region_shape r in ((h <=? 65500) && (w <=? 65500))%Z.

(** [cv2.cvtColor(roi, cv2.COLOR_BGR2GRAY)]: [cv2.error] on an empty
    image. *)
Definition cvtColor (roi : region) : outcome gray :=
  if is_empty roi then Throw CvError else Ret (Gray roi).

End Cv.

(* ------------------------------------------------------------------ *)
(** * The world the program runs in *)

(** What a file holds, as the decoders see it. *)
Inductive content : Type :=
| Still (f : Cv.frame)              (* cv2.imread gives f *)
| Video (frames : list Cv.frame)    (* VideoCapture.read gives these, then fails *)
| Undecodable.

(** A value shown by a debug [print]. *)
Inductive value : Type :=
| VStr (s : str)
| VOpt (s : option str)
| VInt (z : Z)
| VPath (p : path).

(** A line of standard output. The debug lines print Python [repr]s; they
    are kept as the label and the values printed. *)
Inductive line : Type :=
| Out (s : str)
| Dbg (label : string) (vals : list value).

Record world : Type := {
  stdout : list line;
  files : path -> option content;
  is_dir : str -> bool
}.

(** A computation of the program: it reads and changes the world, and
    returns, raises or exits. *)
Definition M (A : Type) : Type := world -> outcome A * world.

Definition ret {A} (a : A) : M A := fun w => (Ret a, w).

Definition bind {A B} (m : M A) (k : A -> M B) : M B :=
  fun w =>
    match m w with
    | (Ret a, w') => k a w'
    | (Throw e, w') => (Throw e, w')
    | (SysExit, w') => (SysExit, w')
    end.

Definition lift {A} (o : outcome A) : M A := fun w => (o, w).

Declare Scope prog_scope.
Delimit Scope prog_scope with prog.
Notation "x <- m ;; k" := (bind m (fun x => k))
  (at level 61, m at next level, right associativity) : prog_scope.
Notation "m ;; k" := (bind m (fun _ => k))
  (at level 61, right associativity) : prog_scope.

(** [print(...)] *)
Definition print (l : line) : M unit :=
  fun w => (Ret tt, {| stdout := stdout w ++ [l];
                       files := files w;
                       is_dir := is_dir w |}).

(** [if debug: print(...)] *)
Definition debug_print (debug : bool) (l : line) : M unit :=
  if debug then print l else ret tt.

(** [sys.exit()] *)
Definition sys_exit {A} : M A := fun w => (SysExit, w).

Definition set_file (fs : path -> option content) (p : path)
    (c : option content) : path -> option content :=
  fun q => if path_eq_dec q p then c else fs q.

(** [cv2.imread(path)]: [None] when the file does not decode to an image. *)
Definition imread (p : path) : M (option Cv.frame) :=
  fun w =>
    (Ret match files w p with
         | Some (Still f) => Some f
         | _ => None
         end, w).

(** The bytes of a string in the file-system encoding (UTF-8): two for
    the code points 128..255. *)
Definition utf8_length (s : str) : nat :=
  fold_right (fun c n => (if PyStr.code c <? 128 then 1 else 2) + n) 0 s.

Definition has_nul (s : str) : bool :=
  existsb (fun c => PyStr.code c =? 0) s.

(** A path within the limits of a POSIX system as Linux has them: no NUL,
    a final component of at most 255 bytes (NAME_MAX), at most 4095 bytes
    in all (PATH_MAX). *)
Definition name_fits (p : path) : bool :=
  negb (has_nul (PyPath.to_str p))
  && (utf8_length (name p) <=? 255)
  && (utf8_length (PyPath.to_str p) <=? 4095).

(** The system can create or replace a file at [p]: its directory exists,
    [p] is not a directory itself, and the path is within the limits. *)
Definition os_accepts (w : world) (p : path) : bool :=
  is_dir w (parent p) && negb (is_dir w (PyPath.to_str p)) && name_fits p.

(** [cv2.imwrite(path, roi)], the path ending in ".jpeg": [cv2.error] on an
    empty image; where the encoder refuses the image or the file cannot be
    opened for writing nothing is written and [False] is returned, which
    the program does not look at. *)
Definition imwrite (p : path) (roi : Cv.region) : M unit :=
  fun w =>
    if Cv.is_empty roi then (Throw CvError, w)
    else if negb (Cv.fits_jpeg roi) then (Ret tt, w)
    else if os_accepts w p
    then (Ret tt, {| stdout := stdout w;
                     files := set_file (files w) p (Some (Still (Cv.Reread roi)));
                     is_dir := is_dir w |})
    else (Ret tt, w).

(** The frames [cv2.VideoCapture(path).read()] yields before it fails. *)
Definition video_frames (p : path) : M (list Cv.frame) :=
  fun w =>
    (Ret match files w p with
         | Some (Video frames) => frames
         | _ => []
         end, w).

(** [src.rename(dst)] on a POSIX system: the file moves, replacing a file
    that [dst] held. It raises [ValueError] for a NUL in [dst], and an
    [OSError] for a path over PATH_MAX, a missing directory of [dst] or a
    missing [src] (both [FileNotFoundError]), a final component over
    NAME_MAX, and a [dst] that is a directory. *)
Definition rename_file (src dst : path) : M unit :=
  fun w =>
    if has_nul (PyPath.to_str dst) then (Throw ValueError, w)
    else if negb (utf8_length (PyPath.to_str dst) <=? 4095)
    then (Throw OSError, w)
    else if negb (is_dir w (parent dst)) then (Throw FileNotFoundError, w)
    else
      match files w src with
      | None => (Throw FileNotFoundError, w)
      | Some c =>
          if negb (utf8_length (name dst) <=? 255) then (Throw OSError, w)
          else if is_dir w (PyPath.to_str dst) then (Throw OSError, w)
          else (Ret tt, {| stdout := stdout w;
                           files := set_file (set_file (files w) src None)
                                             dst (Some c);
                           is_dir := is_dir w |})
      end.

(* ------------------------------------------------------------------ *)
(** * The program *)

Definition member (s : str) (l : list str) : bool := existsb (str_eqb s) l.

(** [a % b] on [int]s. *)
Definition py_mod (a b : Z) : outcome Z :=
  if (b =? 0)%Z then Throw ZeroDivisionError else Ret (a mod b)%Z.

(** The command line, as [main] uses it in its file loop. *)
Record arguments : Type := {
  arg_cam_id : str;      (* --cam-id, default "" *)
  arg_rename : bool;     (* --rename *)
  arg_debug : bool       (* --debug *)
}.

Section Program.

(** [pytesseract.image_to_string(roi_gray, config="--psm 6")]: the text,
    or [None] when it raises. *)
Variable image_to_string : Cv.gray -> option str.

Local Open Scope prog_scope.
Local Open Scope Z_scope.

(** [banner_text_from_frame], lines 59-77: the region of interest. *)
Definition region_of_interest (frame : Cv.frame)
    (roi_height_fraction : F64.float) (debug : bool) : M Cv.region :=
  let '(frame_height, frame_width) := Cv.shape frame in
  debug_print debug
    (Dbg "image original dimention" [VInt frame_height; VInt frame_width]) ;;
  frame <-
    (if frame_width >? 2592 then
       aspect_ratio <- lift (F64.truediv frame_height frame_width) ;;
       let new_width := 1280 in
       new_height <-
         lift (F64.to_int (F64.mul (F64.of_int new_width) aspect_ratio)) ;;
       let frame := Cv.Resized frame new_width new_height in
       let '(frame_height, frame_width) := Cv.shape frame in
       debug_print debug
         (Dbg "image resized dimention" [VInt frame_height; VInt frame_width]) ;;
       ret frame
     else ret frame) ;;
  let '(frame_height, frame_width) := Cv.shape frame in
  roi_height <-
    lift (F64.to_int (F64.mul (F64.of_int frame_height) roi_height_fraction)) ;;
  ret (Cv.Slice frame (frame_height - roi_height) frame_height 0 frame_width).

(** [banner_text_from_frame]; [file_path] is [None] for the default [""]. *)
Definition banner_text_from_frame (frame : Cv.frame)
    (roi_height_fraction : F64.float) (debug : bool)
    (file_path : option path) : M str :=
  roi <- region_of_interest frame roi_height_fraction debug ;;
  match file_path with
  | Some file_path =>
      target <- lift (PyPath.with_suffix file_path (lit ".jpeg")) ;;
      imwrite target roi
  | None => ret tt
  end ;;
  roi_gray <- lift (Cv.cvtColor roi) ;;
  match image_to_string roi_gray with
  | Some extracted_text =>
      debug_print debug (Dbg "extracted_text" [VStr extracted_text]) ;;
      ret extracted_text
  | None =>
      print (Out (lit "Tesseract error")) ;;
      sys_exit
  end.

(** The [while True] loop of [extract_banner_text_from_video]: [stream]
    holds the frames [read()] has yet to give. *)
Fixpoint video_loop (stream : list Cv.frame) (frame_count frame_interval : Z)
    (roi_height_fraction : F64.float) (debug : bool) : M (option str) :=
  match stream with
  | [] => ret None
  | frame :: rest =>
      r <- lift (py_mod frame_count frame_interval) ;;
      if r =? 0 then
        extracted_text <-
          banner_text_from_frame frame roi_height_fraction debug None ;;
        ret (Some extracted_text)
      else
        video_loop rest (frame_count + 1) frame_interval
                   roi_height_fraction debug
  end.

Definition extract_banner_text_from_video (video_path : path)
    (frame_interval : Z) (roi_height_fraction : F64.float)
    (debug : bool) : M (option str) :=
  stream <- video_frames video_path ;;
  video_loop stream 0 frame_interval roi_height_fraction debug.

Definition load_error : str :=
  lit "Error: Unable to load the image. Check the file path.".

Definition extract_banner_text_from_image (image_path : path)
    (roi_height_fraction : F64.float) (debug : bool) : M str :=
  frame <- imread image_path ;;
  match frame with
  | None => ret load_error
  | Some frame =>
      banner_text_from_frame frame roi_height_fraction debug
                             (Some image_path)
  end.

Definition is_video (path_file : path) : bool :=
  member (PyStr.lower (PyPath.suffix path_file)) [lit ".avi"; lit ".mp4"].

Definition is_still (path_file : path) : bool :=
  member (PyStr.lower (PyPath.suffix path_file)) [lit ".jpg"; lit ".jpeg"].

(** Lines 157-163 of [extract_date_time]: the banner text of the file. *)
Definition banner_text_of (path_file : path) (debug : bool)
    : M (option str) :=
  let banner_text := None in
  banner_text <-
    (if is_video path_file
     then extract_banner_text_from_video path_file 30 F64.lit_0_15 debug
     else ret banner_text) ;;
  (if is_still path_file
   then t <- extract_banner_text_from_image path_file F64.lit_0_15 debug ;;
        ret (Some t)
   else ret banner_text).

Definition extract_date_time (path_file : path) (debug : bool) : M data :=
  banner_text <- banner_text_of path_file debug ;;
  match banner_text with
  | None => ret (Error [])
  | Some banner_text =>
      found <- lift (scan_lines (PyStr.split newline banner_text)) ;;
      match found with
      | Some (Info r, text2) =>
          debug_print debug (Dbg "text" [VStr (text r)]) ;;
          debug_print debug (Dbg "text2" [VStr text2]) ;;
          debug_print debug (Dbg "cam_id" [VOpt (cam_id r)]) ;;
          ret (Info r)
      | Some (Error msg, _) => ret (Error msg)
      | None => ret (Error [])
      end
  end.

Definition separator : line := Out (repeat "-"%char 30).

(** The body of [for file_path in files] in [main]. *)
Definition process_file (args : arguments) (file_path : path) : M unit :=
  debug_print (arg_debug args) (Dbg "file_path" [VPath file_path]) ;;
  data <- extract_date_time file_path (arg_debug args) ;;
  match data with
  | Error _ =>
      print (Out (lit "Date and time not found in "
                  ++ PyPath.to_str file_path)) ;;
      print separator
  | Info r =>
      debug_print (arg_debug args)
        (Dbg "temperature" [VOpt (temperature_c r); VOpt (temperature_f r)]) ;;
      (if truthy (date r) && truthy (time r) then
         let cam_id :=
           match cam_id r with
           | None =>
               if truthy (arg_cam_id args) then arg_cam_id args
               else lit "CAM-ID"
           | Some c => c
           end in
         let new_file_path :=
           PyPath.joinpath (parent file_path)
             (date r ++ lit "_" ++ time r ++ lit "_" ++ cam_id
              ++ lit "_" ++ name file_path) in
         if (PyStr.count (lit "-") (name file_path) =? 2)%nat then
           print (Out (name file_path ++ lit " already renammed"))
         else if arg_rename args then
           rename_file file_path new_file_path ;;
           print (Out (name file_path ++ lit " renamed to "
                       ++ name new_file_path))
         else
           print (Out (lit "rename " ++ name file_path ++ lit " to "
                       ++ name new_file_path))
       else ret tt) ;;
      print separator
  end.

(** [for file_path in files: ...] *)
Fixpoint main_loop (args : arguments) (files : list path) : M unit :=
  match files with
  | [] => ret tt
  | file_path :: rest =>
      process_file args file_path ;;
      main_loop args rest
  end.

End Program.

(* ------------------------------------------------------------------ *)
(** * What the properties speak of *)

(** A date token: digit digit '-' digit digit '-' and four digits. *)
Definition is_date_token (m : str) : Prop :=
  exists a b c d e f g h : ascii,
    m = [a; b; "-"; c; d; "-"; e; f; g; h]%char /\
    forallb PyStr.isdigit [a; b; c; d; e; f; g; h] = true.

(** A time token: HH:MM:SS. *)
Definition is_time_token (m : str) : Prop :=
  exists a b c d e f : ascii,
    m = [a; b; ":"; c; d; ":"; e; f]%char /\
    forallb PyStr.isdigit [a; b; c; d; e; f] = true.

(** The line contains a token of the given kind. *)
Definition has_token (token : str -> Prop) (line : str) : Prop :=
  exists pre m suf, line = pre ++ m ++ suf /\ token m.

Definition has_date : str -> Prop := has_token is_date_token.
Definition has_time : str -> Prop := has_token is_time_token.

(** The sampler the text describes: it reads one frame, has no sampling
    interval, and gives the absent text when no frame decodes. *)
Definition sample_first_frame (image_to_string : Cv.gray -> option str)
    (video_path : path) (roi_height_fraction : F64.float) (debug : bool)
    : M (option str) :=
  (stream <- video_frames video_path ;;
   match stream with
   | [] => ret None
   | frame :: _ =>
       extracted_text <-
         banner_text_from_frame image_to_string frame roi_height_fraction
                                debug None ;;
       ret (Some extracted_text)
   end)%prog.

(** [m] leaves the files as they are. *)
Definition keeps_files {A} (m : M A) : Prop :=
  forall w, files (snd (m w)) = files w.

(** [m] leaves through [sys.exit()] only right after printing
    "Tesseract error". *)
Definition exits_on_tesseract_error {A} (m : M A) : Prop :=
  forall w w', m w = (SysExit, w') ->
               exists l, stdout w' = l ++ [Out (lit "Tesseract error")].

(** The camera id of the new name: the record's, else [--cam-id], else
    "CAM-ID". *)
Definition resolved_cam_id (args : arguments) (r : info) : str :=
  match cam_id r with
  | None => if truthy (arg_cam_id args) then arg_cam_id args else lit "CAM-ID"
  | Some c => c
  end.

(** [new_file_path] of [main]. *)
Definition target_path (args : arguments) (file_path : path) (r : info)
    : path :=
  PyPath.joinpath (parent file_path)
    (date r ++ lit "_" ++ time r ++ lit "_" ++ resolved_cam_id args r
     ++ lit "_" ++ name file_path).

(* ------------------------------------------------------------------ *)
(** * A small directory to run the program on *)

Module Example.

Definition banner : str := lit "@ FOSA_01 73F 23C @ 06-09-2023 13:41:51".

Definition in_pics (file_name : string) : path :=
  {| parent := lit "pics"; name := lit file_name |}.

Definition photo : path := in_pics "IMG_0001.JPG".
Definition jpeg : path := in_pics "IMG_0002.jpeg".
Definition clip : path := in_pics "VID_0003.mp4".
Definition broken : path := in_pics "IMG_0004.jpg".
Definition renamed : path := in_pics "2023-06-09_134151_FOSA_01_IMG_0005.JPG".

Definition large_frame : Cv.frame := Cv.Decoded 1 3000 4000.
Definition small_frame : Cv.frame := Cv.Decoded 2 1080 1920.
Definition first_frame : Cv.frame := Cv.Decoded 3 720 1280.
Definition later_frame : Cv.frame := Cv.Decoded 4 720 1280.

Definition disk (p : path) : option content :=
  if path_eq_dec p photo then Some (Still large_frame)
  else if path_eq_dec p jpeg then Some (Still small_frame)
  else if path_eq_dec p clip then Some (Video [first_frame; later_frame])
  else if path_eq_dec p broken then Some Undecodable
  else if path_eq_dec p renamed then Some (Still small_frame)
  else None.

Definition world0 : world :=
  {| stdout := [];
     files := disk;
     is_dir := fun d => str_eqb d (lit "pics") |}.

(** A recognizer that reads the documented banner on every image. *)
Definition reads_banner (roi_gray : Cv.gray) : option str := Some banner.

(** A recognizer that reads a banner with date and time only. *)
Definition reads_date_time (roi_gray : Cv.gray) : option str :=
  Some (lit "06-09-2023 13:41:51").

(** A recognizer that raises on the crops of [large_frame] and reads the
    documented banner everywhere else. *)
Definition fails_on_large (roi_gray : Cv.gray) : option str :=
  match roi_gray with
  | Cv.Gray (Cv.Slice (Cv.Resized (Cv.Decoded 1 _ _) _ _) _ _ _ _) => None
  | _ => Some banner
  end.

Definition dry_run : arguments :=
  {| arg_cam_id := []; arg_rename := false; arg_debug := false |}.

Definition execute : arguments :=
  {| arg_cam_id := []; arg_rename := true; arg_debug := false |}.

Definition dry_run_with_default : arguments :=
  {| arg_cam_id := lit "TRAP7"; arg_rename := false; arg_debug := false |}.

End Example.

(* ------------------------------------------------------------------ *)
(** * Further notions and sample data *)

(** [m] only adds lines to standard output. *)
Definition appends_only {A} (m : M A) : Prop :=
  forall w, exists l, stdout (snd (m w)) = stdout w ++ l.

(** Two worlds that differ in what was printed at most. *)
Definition same_disk (w1 w2 : world) : Prop :=
  files w1 = files w2 /\ is_dir w1 = is_dir w2.

(** [m1] and [m2] end alike (same value, exception or exit) and leave the
    same files, from worlds with the same files. *)
Definition alike {A} (m1 m2 : M A) : Prop :=
  forall w1 w2, same_disk w1 w2 ->
                fst (m1 w1) = fst (m2 w2) /\
                same_disk (snd (m1 w1)) (snd (m2 w2)).

(** Every run of spaces made one space, written directly. *)
Fixpoint squeeze (s : str) : str :=
  match s with
  | [] => []
  | c :: s' =>
      if PyStr.startswith (lit "  ") s then squeeze s' else c :: squeeze s'
  end.

(** [m] leaves the set of directories as it is. *)
Definition keeps_dirs {A} (m : M A) : Prop :=
  forall w, is_dir (snd (m w)) = is_dir w.

(** [frame] is the frame the program samples for [file_path]: the image of
    a still, the first frame of a video. *)
Definition sampled (w : world) (file_path : path) (frame : Cv.frame) : Prop :=
  (is_still file_path = true /\ files w file_path = Some (Still frame)) \/
  (is_video file_path = true /\
   exists later, files w file_path = Some (Video (frame :: later))).

(** The number of hyphens of a string. *)
Definition hyphens (s : str) : nat := PyStr.count (lit "-") s.

Module Sample.

(** The record of the documented banner line. *)
Definition banner_info : info :=
  {| text := Example.banner;
     cam_id := Some (lit "FOSA_01");
     date := lit "2023-06-09";
     time := lit "134151";
     temperature_c := Some (lit "23C");
     temperature_f := Some (lit "73F") |}.

(** Recognized text with a line of noise, a line with a time only, and
    the documented banner line. *)
Definition noisy_text : str :=
  lit "~~ ,." ++ [newline] ++ lit "13:41:51" ++ [newline] ++ Example.banner.

(** A record whose camera id holds a hyphen. *)
Definition hyphen_info : info :=
  {| text := lit "CAM-7 06-09-2023 13:41:51";
     cam_id := Some (lit "CAM-7");
     date := lit "2023-06-09";
     time := lit "134151";
     temperature_c := None;
     temperature_f := None |}.

Definition debug_run : arguments :=
  {| arg_cam_id := []; arg_rename := false; arg_debug := true |}.

(** A decodable ".jpeg" of five rows: its bottom 15 percent has no row. *)
Definition tiny : path := Example.in_pics "IMG_0006.jpeg".

Definition tiny_frame : Cv.frame := Cv.Decoded 6 5 5.

Definition tiny_world : world :=
  {| stdout := [];
     files := fun p => if path_eq_dec p tiny then Some (Still tiny_frame)
                       else None;
     is_dir := fun d => str_eqb d (lit "pics") |}.

End Sample.

(* ================================================================== *)
(** * Properties *)

(* ------------------------------------------------------------------ *)
(** ** The space-collapse loop *)

Section Collapse.

Local Abbreviation dd := ([" "; " "]%char : str).
Local Abbreviation sp := ([" "]%char : str).

Lemma replace_from_double_le (s : str) (k : nat) :
  length (PyStr.replace_from dd sp s k) <= length s.
Proof.
  revert k; induction s as [|c s IH]; intros k;
    cbn [PyStr.replace_from length]; [lia|].
  destruct k as [|k].
  - destruct (PyStr.startswith dd (c :: s)).
    + specialize (IH 1). cbn [length app Nat.sub] in *. lia.
    + specialize (IH 0). cbn [length]. lia.
  - specialize (IH k). lia.
Qed.

Lemma replace_double_shorter (s : str) :
  PyStr.contains dd s = true ->
  length (PyStr.replace dd sp s) < length s.
Proof.
  change (PyStr.replace dd sp s) with (PyStr.replace_from dd sp s 0).
  induction s as [|c s IH]; intros H.
  - discriminate.
  - cbn [PyStr.contains] in H. cbn [PyStr.replace_from].
    destruct (PyStr.startswith dd (c :: s)) eqn:E.
    + destruct s as [|c2 s].
      * cbn [PyStr.startswith] in E.
        rewrite andb_false_r in E. discriminate.
      * pose proof (replace_from_double_le s 0).
        cbn [length app Nat.sub PyStr.replace_from] in *. lia.
    + cbn [orb] in H. apply IH in H. cbn [length]. lia.
Qed.

Lemma collapse_fuel_clean (n : nat) (s : str) :
  length s <= n ->
  PyStr.contains dd (collapse_spaces_fuel n s) = false.
Proof.
  revert s; induction n as [|n IH]; intros s Hn.
  - destruct s; [reflexivity | simpl in Hn; lia].
  - cbn [collapse_spaces_fuel].
    change (lit "  ") with dd. change (lit " ") with sp.
    destruct (PyStr.contains dd s) eqn:E; [|exact E].
    apply IH. pose proof (replace_double_shorter s E). lia.
Qed.

Lemma collapse_fuel_enough (n m : nat) (s : str) :
  length s <= n -> length s <= m ->
  collapse_spaces_fuel n s = collapse_spaces_fuel m s.
Proof.
  revert m s; induction n as [|n IH]; intros m s Hn Hm.
  - destruct s; [destruct m; reflexivity | simpl in Hn; lia].
  - destruct m as [|m].
    + destruct s; [reflexivity | simpl in Hm; lia].
    + cbn [collapse_spaces_fuel].
      change (lit "  ") with dd. change (lit " ") with sp.
      destruct (PyStr.contains dd s) eqn:E; [|reflexivity].
      pose proof (replace_double_shorter s E).
      apply IH; lia.
Qed.

(** The fuel never runs out: [collapse_spaces] satisfies the equation of
    the [while] loop. *)
Lemma collapse_spaces_unfold (s : str) :
  collapse_spaces s =
  if PyStr.contains (lit "  ") s
  then collapse_spaces (PyStr.replace (lit "  ") (lit " ") s)
  else s.
Proof.
  unfold collapse_spaces.
  destruct s as [|c s]; [reflexivity|].
  cbn [length collapse_spaces_fuel].
  change (lit "  ") with dd. change (lit " ") with sp.
  destruct (PyStr.contains dd (c :: s)) eqn:E; [|reflexivity].
  pose proof (replace_double_shorter (c :: s) E) as L. cbn [length] in L.
  apply collapse_fuel_enough; lia.
Qed.

(** On leaving the loop no double space is left. *)
Lemma collapse_spaces_clean (s : str) :
  PyStr.contains (lit "  ") (collapse_spaces s) = false.
Proof. apply collapse_fuel_clean. lia. Qed.

Lemma collapse_spaces_fixed (s : str) :
  PyStr.contains (lit "  ") s = false -> collapse_spaces s = s.
Proof. intros H. rewrite collapse_spaces_unfold, H. reflexivity. Qed.

End Collapse.

(** C8. The space-collapse transform of camera-id recovery is idempotent:
    for every string, collapsing twice gives the same string as collapsing
    once. *)
Theorem collapse_spaces_idempotent (s : str) :
  collapse_spaces (collapse_spaces s) = collapse_spaces s.
Proof.
  apply collapse_spaces_fixed, collapse_spaces_clean.
Qed.

(* ------------------------------------------------------------------ *)
(** ** The parser on the documented line *)

(** C2. Parsing the single line "@ FOSA_01 73F 23C @ 06-09-2023 13:41:51"
    gives exactly the record with camera id "FOSA_01", date "2023-06-09",
    time "134151", Fahrenheit temperature "73F" and Celsius temperature
    "23C" (and the line itself as its text). *)
Theorem parse_documented_line :
  parse_banner_text (Some (lit "@ FOSA_01 73F 23C @ 06-09-2023 13:41:51")) =
  Ret (Info {| text := lit "@ FOSA_01 73F 23C @ 06-09-2023 13:41:51";
               cam_id := Some (lit "FOSA_01");
               date := lit "2023-06-09";
               time := lit "134151";
               temperature_c := Some (lit "23C");
               temperature_f := Some (lit "73F") |}).
Proof. vm_compute. reflexivity. Qed.

(* ------------------------------------------------------------------ *)
(** ** Date and time tokens *)

Section Tokens.

Local Arguments Ascii.eqb : simpl never.
Local Arguments PyStr.isdigit : simpl never.

Lemma digit_is_not (x c : ascii) :
  PyStr.isdigit x = false -> PyStr.isdigit c = true ->
  Ascii.eqb x c = false /\ Ascii.eqb c x = false.
Proof.
  intros Hx Hc. split.
  - destruct (Ascii.eqb_spec x c); [subst; congruence | reflexivity].
  - destruct (Ascii.eqb_spec c x); [subst; congruence | reflexivity].
Qed.

Lemma forallb_digits (l : list ascii) :
  forallb PyStr.isdigit l = true -> Forall (fun c => PyStr.isdigit c = true) l.
Proof. intros H. apply Forall_forall. apply forallb_forall. exact H. Qed.

Ltac digits H :=
  apply forallb_digits in H;
  repeat match goal with
         | H : Forall _ (_ :: _) |- _ => inversion H; subst; clear H
         | H : Forall _ [] |- _ => clear H
         end.

Ltac not_digit ch :=
  repeat match goal with
         | H : PyStr.isdigit ?c = true |- _ =>
             lazymatch goal with
             | _ : Ascii.eqb ch c = false |- _ => fail
             | _ => destruct (digit_is_not ch c eq_refl H)
             end
         end.

Ltac ifs H :=
  simpl in H;
  repeat (match type of H with
          | context [if ?b then _ else _] => destruct b eqn:?
          end; simpl in H);
  try discriminate.

Ltac run :=
  simpl;
  repeat (first [ rewrite Ascii.eqb_refl
                | match goal with
                  | E : _ = true |- _ => rewrite E
                  | E : _ = false |- _ => rewrite E
                  end ]; simpl).

Ltac uncons H s :=
  destruct s as [|? s]; [ifs H|].

Ltac chars :=
  repeat match goal with
         | H : Ascii.eqb _ _ = true |- _ => apply Ascii.eqb_eq in H; subst
         end.

Lemma match_date_inv (s m : str) :
  Re.match_here Re.date_re s = Some m ->
  is_date_token m /\ exists suf, s = m ++ suf.
Proof.
  unfold Re.date_re, Re.chr. intros H.
  do 10 uncons H s.
  ifs H. chars. inversion H; subst; clear H.
  split.
  - do 8 eexists. split; [reflexivity|]. run. reflexivity.
  - exists s. reflexivity.
Qed.

Lemma match_date_complete (m suf : str) :
  is_date_token m -> Re.match_here Re.date_re (m ++ suf) = Some m.
Proof.
  intros (a & b & c & d & e & f & g & h & -> & H).
  digits H. unfold Re.date_re, Re.chr. run. reflexivity.
Qed.

Lemma match_time_inv (s m : str) :
  Re.match_here Re.time_re s = Some m ->
  is_time_token m /\ exists suf, s = m ++ suf.
Proof.
  unfold Re.time_re, Re.chr. intros H.
  do 8 uncons H s.
  ifs H. chars. inversion H; subst; clear H.
  split.
  - do 6 eexists. split; [reflexivity|]. run. reflexivity.
  - exists s. reflexivity.
Qed.

Lemma match_time_complete (m suf : str) :
  is_time_token m -> Re.match_here Re.time_re (m ++ suf) = Some m.
Proof.
  intros (a & b & c & d & e & f & -> & H).
  digits H. unfold Re.time_re, Re.chr. run. reflexivity.
Qed.

(** [re.search] finds a match exactly when some suffix of the text
    starts with one. *)
Lemma search_some (re : Re.regex) (s m : str) :
  Re.search re s = Some m ->
  exists pre suf, s = pre ++ suf /\ Re.match_here re suf = Some m.
Proof.
  induction s as [|c s IH]; cbn [Re.search]; intros H.
  - destruct (Re.match_here re []) eqn:E; [|discriminate].
    inversion H; subst. exists [], []. split; [reflexivity | exact E].
  - destruct (Re.match_here re (c :: s)) eqn:E.
    + inversion H; subst. exists [], (c :: s). split; [reflexivity | exact E].
    + destruct (IH H) as (pre & suf & -> & Hm).
      exists (c :: pre), suf. split; [reflexivity | exact Hm].
Qed.

Lemma search_none (re : Re.regex) (pre suf : str) :
  Re.search re (pre ++ suf) = None -> Re.match_here re suf = None.
Proof.
  induction pre as [|c pre IH]; cbn [app Re.search]; intros H.
  - destruct suf; cbn [Re.search] in H;
      destruct (Re.match_here re _); congruence.
  - destruct (Re.match_here re (c :: pre ++ suf)); [discriminate|].
    apply IH, H.
Qed.

Lemma search_date_some (line m : str) :
  Re.search Re.date_re line = Some m -> is_date_token m /\ has_date line.
Proof.
  intros H. apply search_some in H. destruct H as (pre & suf & -> & H).
  apply match_date_inv in H. destruct H as (T & suf' & ->).
  split; [exact T|]. exists pre, m, suf'. split; [reflexivity | exact T].
Qed.

Lemma search_date_none (line : str) :
  Re.search Re.date_re line = None -> ~ has_date line.
Proof.
  intros H (pre & m & suf & -> & T).
  apply search_none in H.
  rewrite (match_date_complete _ suf T) in H. discriminate.
Qed.

Lemma search_time_some (line m : str) :
  Re.search Re.time_re line = Some m -> is_time_token m /\ has_time line.
Proof.
  intros H. apply search_some in H. destruct H as (pre & suf & -> & H).
  apply match_time_inv in H. destruct H as (T & suf' & ->).
  split; [exact T|]. exists pre, m, suf'. split; [reflexivity | exact T].
Qed.

Lemma search_time_none (line : str) :
  Re.search Re.time_re line = None -> ~ has_time line.
Proof.
  intros H (pre & m & suf & -> & T).
  apply search_none in H.
  rewrite (match_time_complete _ suf T) in H. discriminate.
Qed.

(** [raw_date.split('-')] has the three groups, so no index fails. *)
Lemma split_date_token (a b c d e f g h : ascii) :
  forallb PyStr.isdigit [a; b; c; d; e; f; g; h] = true ->
  PyStr.split "-" [a; b; "-"; c; d; "-"; e; f; g; h]%char =
  [[a; b]; [c; d]; [e; f; g; h]].
Proof.
  intros H. digits H. not_digit "-"%char. run. reflexivity.
Qed.

(** [raw_time.replace(":", "")] keeps the six digits. *)
Lemma replace_time_token (a b c d e f : ascii) :
  forallb PyStr.isdigit [a; b; c; d; e; f] = true ->
  PyStr.replace (lit ":") [] [a; b; ":"; c; d; ":"; e; f]%char =
  [a; b; c; d; e; f].
Proof.
  intros H. digits H. not_digit ":"%char. run. reflexivity.
Qed.

End Tokens.

(* ------------------------------------------------------------------ *)
(** ** One line of banner text *)

Lemma insert_by_len_cons (x : str) (l : list str) :
  exists y l', PyStr.insert_by_len x l = y :: l'.
Proof.
  destruct l as [|y l]; cbn [PyStr.insert_by_len]; [eauto|].
  destruct (length x <? length y); eauto.
Qed.

Lemma split_cons (sep : ascii) (s : str) :
  exists w ws, PyStr.split sep s = w :: ws.
Proof.
  induction s as [|c s (w & ws & IH)]; cbn [PyStr.split]; [eauto|].
  destruct (Ascii.eqb c sep); [eauto|]. rewrite IH. eauto.
Qed.

(** [sorted(text2.split(" "), key=len, reverse=True)[0]] always exists:
    the [except] branch that would leave [cam_id] at [None] is never taken. *)
Lemma longest_token_exists (text2 : str) :
  exists t rest,
    PyStr.sorted_by_len_desc (PyStr.split " " text2) = t :: rest.
Proof.
  destruct (split_cons " " text2) as (w & ws & ->).
  unfold PyStr.sorted_by_len_desc. cbn [fold_right].
  apply insert_by_len_cons.
Qed.

(** The head of the sorted list is a longest element, and the first of
    that length. *)
Lemma sorted_head_first_longest (l : list str) (t : str) (rest : list str) :
  PyStr.sorted_by_len_desc l = t :: rest ->
  exists pre post,
    l = pre ++ t :: post /\
    Forall (fun u => length u < length t) pre /\
    Forall (fun u => length u <= length t) post.
Proof.
  revert t rest; induction l as [|x l IH]; intros t rest H.
  - discriminate.
  - unfold PyStr.sorted_by_len_desc in H. cbn [fold_right] in H.
    fold (PyStr.sorted_by_len_desc l) in H.
    destruct (PyStr.sorted_by_len_desc l) as [|y ys] eqn:E.
    + cbn [PyStr.insert_by_len] in H. inversion H; subst.
      destruct l as [|z l].
      * exists [], []. repeat split; constructor.
      * exfalso. unfold PyStr.sorted_by_len_desc in E. cbn [fold_right] in E.
        destruct (insert_by_len_cons z (fold_right PyStr.insert_by_len [] l))
          as (? & ? & E'). congruence.
    + destruct (IH y ys eq_refl) as (pre & post & -> & Hpre & Hpost).
      cbn [PyStr.insert_by_len] in H.
      destruct (length x <? length y) eqn:L.
      * inversion H; subst. apply Nat.ltb_lt in L.
        exists (x :: pre), post. repeat split; [constructor|]; assumption.
      * inversion H; subst. apply Nat.ltb_ge in L.
        exists [], (pre ++ y :: post). repeat split; [constructor|].
        apply Forall_app. split.
        -- eapply Forall_impl; [|exact Hpre]. cbn. intros; lia.
        -- constructor; [exact L|].
           eapply Forall_impl; [|exact Hpost]. cbn. intros; lia.
Qed.

(** What [scan_line] does, by the tokens the line holds: it never raises;
    without a date or without a time the loop goes on to the next line;
    with both it returns a full record, whose date and time are non-empty
    and whose camera id is present. *)
Lemma scan_line_cases (line : str) :
  (scan_line line = Ret Continue /\ ~ (has_date line /\ has_time line)) \/
  (exists r text2,
      scan_line line = Ret (Return (Info r) text2) /\
      has_date line /\ has_time line /\
      text r = line /\
      truthy (date r) = true /\ truthy (time r) = true /\
      (exists c, cam_id r = Some c)).
Proof.
  unfold scan_line.
  destruct (Re.search Re.date_re line) as [raw_date|] eqn:Ed.
  2:{ left. split; [reflexivity|].
      intros [Hd _]. exact (search_date_none _ Ed Hd). }
  destruct (search_date_some _ _ Ed) as [(a & b & c & d & e & f & g & h & -> & Hdig) Hd].
  rewrite (split_date_token _ _ _ _ _ _ _ _ Hdig).
  cbn [index nth_error obind].
  destruct (Re.search Re.time_re line) as [raw_time|] eqn:Et.
  2:{ left. split; [reflexivity|].
      intros [_ Ht]. exact (search_time_none _ Et Ht). }
  destruct (search_time_some _ _ Et) as [(a' & b' & c' & d' & e' & f' & -> & Hdig') Ht].
  rewrite (replace_time_token _ _ _ _ _ _ Hdig').
  right.
  match goal with
  | |- context [PyStr.sorted_by_len_desc (PyStr.split " " ?t)] =>
      destruct (longest_token_exists t) as (tok & rest & ->)
  end.
  do 2 eexists. split; [reflexivity|].
  cbn. repeat split; try assumption. eauto.
Qed.

Lemma scan_line_rejects (line : str) :
  ~ (has_date line /\ has_time line) -> scan_line line = Ret Continue.
Proof.
  intros N. destruct (scan_line_cases line) as [[E _] | (r & t2 & _ & Hd & Ht & _)].
  - exact E.
  - exfalso. apply N. split; assumption.
Qed.

Lemma scan_lines_found (lines : list str) (d : data) (text2 : str) :
  scan_lines lines = Ret (Some (d, text2)) ->
  exists r, d = Info r /\ In (text r) lines /\
            has_date (text r) /\ has_time (text r) /\
            truthy (date r) = true /\ truthy (time r) = true /\
            (exists c, cam_id r = Some c).
Proof.
  induction lines as [|line rest IH]; cbn [scan_lines]; intros H.
  - discriminate.
  - destruct (scan_line_cases line)
      as [[E _] | (r & t2 & E & Hd & Ht & Hx & Hdate & Htime & Hcam)];
      rewrite E in H; cbn [obind] in H.
    + destruct (IH H) as (r & -> & Hin & Hrest).
      exists r. split; [reflexivity|]. split; [right; exact Hin | exact Hrest].
    + inversion H; subst. exists r.
      repeat split; try assumption. left. reflexivity.
Qed.

Lemma scan_lines_none (lines : list str) :
  (forall line, In line lines -> ~ (has_date line /\ has_time line)) ->
  scan_lines lines = Ret None.
Proof.
  induction lines as [|line rest IH]; cbn [scan_lines]; intros H.
  - reflexivity.
  - rewrite (scan_line_rejects line (H line (or_introl eq_refl))).
    cbn [obind]. apply IH. intros l Hl. apply H. right. exact Hl.
Qed.

(** The loop never raises: it ends with a record or with nothing. *)
Lemma scan_lines_total (lines : list str) :
  scan_lines lines = Ret None \/
  exists r text2, scan_lines lines = Ret (Some (Info r, text2)).
Proof.
  induction lines as [|line rest IH]; cbn [scan_lines].
  - left. reflexivity.
  - destruct (scan_line_cases line) as [[E _] | (r & t2 & E & _)];
      rewrite E; cbn [obind].
    + exact IH.
    + right. eauto.
Qed.

(** [extract_date_time] returns what [parse_banner_text] makes of the
    banner text of the file; [--debug] only adds printed lines. *)
Lemma extract_date_time_parses
    (image_to_string : Cv.gray -> option str) (path_file : path)
    (debug : bool) (w w0 : world) (banner_text : option str) :
  banner_text_of image_to_string path_file debug w = (Ret banner_text, w0) ->
  fst (extract_date_time image_to_string path_file debug w) =
  parse_banner_text banner_text.
Proof.
  intros H. unfold extract_date_time. unfold bind at 1. rewrite H.
  destruct banner_text as [t|]; [|reflexivity].
  cbn [parse_banner_text]. unfold bind at 1, lift.
  destruct (scan_lines_total (PyStr.split newline t)) as [E | (r & t2 & E)];
    rewrite E; cbn [obind]; [reflexivity|].
  unfold bind, debug_print, print, ret. destruct debug; reflexivity.
Qed.

(** The literal [0.15] is the binary64 number nearest to 15/100. *)
Lemma lit_0_15_nearest : F64.truediv 15 100 = Ret F64.lit_0_15.
Proof. reflexivity. Qed.

(** C1. The parser returns a record only if some line of the banner text
    holds both a date token (digit digit '-' digit digit '-' four digits)
    and a time token (HH:MM:SS), and the record is that line's; a line that
    lacks the date, the time or both is rejected with no record built and
    the loop goes on with the next line; when no line holds both, or when
    the text is [None], the result is the field-less [{"error": ""}]. The
    parser has no other outcome. *)
Theorem record_only_with_date_and_time :
  (forall banner_text r,
      parse_banner_text banner_text = Ret (Info r) ->
      exists t, banner_text = Some t /\
                In (text r) (PyStr.split newline t) /\
                has_date (text r) /\ has_time (text r)) /\
  (forall line rest,
      ~ (has_date line /\ has_time line) ->
      scan_line line = Ret Continue /\
      scan_lines (line :: rest) = scan_lines rest) /\
  (forall t,
      (forall line, In line (PyStr.split newline t) ->
                    ~ (has_date line /\ has_time line)) ->
      parse_banner_text (Some t) = Ret (Error [])) /\
  parse_banner_text None = Ret (Error []) /\
  (forall banner_text,
      parse_banner_text banner_text = Ret (Error []) \/
      exists r, parse_banner_text banner_text = Ret (Info r)).
Proof.
  split; [|split; [|split; [|split]]].
  - intros [t|] r H; cbn [parse_banner_text] in H; [|discriminate].
    destruct (scan_lines (PyStr.split newline t)) as [[[d t2]|]| |] eqn:E;
      cbn [obind] in H; try discriminate.
    inversion H; subst.
    destruct (scan_lines_found _ _ _ E) as (r' & Hr & Hin & Hd & Ht & _).
    inversion Hr; subst. exists t. repeat split; assumption.
  - intros l rest N. pose proof (scan_line_rejects l N) as E. split; [exact E|].
    cbn [scan_lines]. rewrite E. reflexivity.
  - intros t H. cbn [parse_banner_text].
    rewrite (scan_lines_none _ H). reflexivity.
  - reflexivity.
  - intros [t|]; cbn [parse_banner_text]; [|left; reflexivity].
    destruct (scan_lines_total (PyStr.split newline t)) as [E | (r & t2 & E)];
      rewrite E; cbn [obind]; [left | right; exists r]; reflexivity.
Qed.

(* ------------------------------------------------------------------ *)
(** ** The video sampler *)

Lemma py_mod_zero (frame_interval : Z) :
  (0 < frame_interval)%Z -> py_mod 0 frame_interval = Ret 0%Z.
Proof.
  intros H. unfold py_mod.
  destruct (Z.eqb_spec frame_interval 0); [lia|].
  rewrite Z.mod_0_l by lia. reflexivity.
Qed.

(** C9. For every video and every positive sampling interval the video
    sampler looks at the first decoded frame only: the counter starts at 0
    and 0 is a multiple of every interval, so the function does what the
    one-frame sampler does, whatever the interval; with no decoded frame
    the result is the absent text. *)
Theorem video_sampler_uses_first_frame
    (image_to_string : Cv.gray -> option str) (video_path : path)
    (frame_interval : Z) (roi_height_fraction : F64.float) (debug : bool)
    (w : world) :
  (0 < frame_interval)%Z ->
  extract_banner_text_from_video image_to_string video_path frame_interval
                                 roi_height_fraction debug w =
  sample_first_frame image_to_string video_path roi_height_fraction debug w
  /\ (fst (video_frames video_path w) = Ret [] ->
      extract_banner_text_from_video image_to_string video_path
        frame_interval roi_height_fraction debug w = (Ret None, w)).
Proof.
  intros H.
  unfold extract_banner_text_from_video, sample_first_frame, bind.
  unfold video_frames.
  destruct (match files w video_path with
            | Some (Video frames) => frames
            | _ => []
            end) as [|frame rest] eqn:E.
  - split; [reflexivity|]. intros _. reflexivity.
  - split; [|cbn [fst]; intros D; discriminate].
    cbn [video_loop]. unfold bind, lift.
    rewrite (py_mod_zero _ H). cbn [Z.eqb]. reflexivity.
Qed.

(* ------------------------------------------------------------------ *)
(** ** Region extraction *)


(* ------------------------------------------------------------------ *)
(** ** Reasoning about computations *)

Lemma bind_cases {A B} (m : M A) (k : A -> M B) (w : world) :
  (exists a w1, m w = (Ret a, w1) /\ bind m k w = k a w1) \/
  (exists e w1, m w = (Throw e, w1) /\ bind m k w = (Throw e, w1)) \/
  (exists w1, m w = (SysExit, w1) /\ bind m k w = (SysExit, w1)).
Proof.
  unfold bind. destruct (m w) as [[a|e|] w1].
  - left. eauto.
  - right. left. eauto.
  - right. right. eauto.
Qed.

Lemma keeps_files_bind {A B} (m : M A) (k : A -> M B) :
  keeps_files m -> (forall a, keeps_files (k a)) -> keeps_files (bind m k).
Proof.
  intros Hm Hk w. specialize (Hm w).
  destruct (bind_cases m k w)
    as [(a & w1 & E & ->) | [(e & w1 & E & ->) | (w1 & E & ->)]];
    rewrite E in Hm; cbn [snd] in *; [rewrite Hk|..]; exact Hm.
Qed.

Lemma keeps_files_ret {A} (a : A) : keeps_files (ret a).
Proof. intros w. reflexivity. Qed.

Lemma keeps_files_lift {A} (o : outcome A) : keeps_files (lift o).
Proof. intros w. reflexivity. Qed.

Lemma keeps_files_print (l : line) : keeps_files (print l).
Proof. intros w. reflexivity. Qed.

Lemma keeps_files_debug_print (debug : bool) (l : line) :
  keeps_files (debug_print debug l).
Proof. intros w. destruct debug; reflexivity. Qed.

Lemma keeps_files_sys_exit {A} : keeps_files (@sys_exit A).
Proof. intros w. reflexivity. Qed.

Lemma exits_bind {A B} (m : M A) (k : A -> M B) :
  exits_on_tesseract_error m -> (forall a, exits_on_tesseract_error (k a)) ->
  exits_on_tesseract_error (bind m k).
Proof.
  intros Hm Hk w w' H.
  destruct (bind_cases m k w)
    as [(a & w1 & E & R) | [(e & w1 & E & R) | (w1 & E & R)]];
    rewrite R in H.
  - exact (Hk a w1 w' H).
  - discriminate.
  - inversion H; subst. exact (Hm w w' E).
Qed.

Lemma exits_never {A} (m : M A) :
  (forall w, fst (m w) <> SysExit) -> exits_on_tesseract_error m.
Proof. intros N w w' H. exfalso. apply (N w). rewrite H. reflexivity. Qed.

Lemma exits_ret {A} (a : A) : exits_on_tesseract_error (ret a).
Proof. apply exits_never. intros w. discriminate. Qed.

Lemma exits_print (l : line) : exits_on_tesseract_error (print l).
Proof. apply exits_never. intros w. discriminate. Qed.

Lemma exits_debug_print (debug : bool) (l : line) :
  exits_on_tesseract_error (debug_print debug l).
Proof. destruct debug; [apply exits_print | apply exits_ret]. Qed.

Lemma exits_lift {A} (o : outcome A) :
  o <> SysExit -> exits_on_tesseract_error (lift o).
Proof. intros N. apply exits_never. intros w. exact N. Qed.

Lemma truediv_no_exit (a b : Z) : F64.truediv a b <> SysExit.
Proof. unfold F64.truediv. destruct (a =? 0)%Z, (b =? 0)%Z; discriminate. Qed.

Lemma to_int_no_exit (x : F64.float) : F64.to_int x <> SysExit.
Proof. destruct x as [s|s| |s m e]; cbn; try discriminate. Qed.

Lemma py_mod_no_exit (a b : Z) : py_mod a b <> SysExit.
Proof. unfold py_mod. destruct (b =? 0)%Z; discriminate. Qed.

Lemma with_suffix_no_exit (p : path) (s : str) :
  PyPath.with_suffix p s <> SysExit.
Proof.
  unfold PyPath.with_suffix. destruct (name p); [discriminate|].
  destruct (truthy _); discriminate.
Qed.

Lemma cvtColor_no_exit (roi : Cv.region) : Cv.cvtColor roi <> SysExit.
Proof. unfold Cv.cvtColor. destruct (Cv.is_empty roi); discriminate. Qed.

Lemma scan_lines_no_exit (lines : list str) : scan_lines lines <> SysExit.
Proof.
  destruct (scan_lines_total lines) as [E | (r & t & E)]; rewrite E; discriminate.
Qed.

Lemma exits_tesseract_error {A} :
  exits_on_tesseract_error
    (bind (print (Out (lit "Tesseract error"))) (fun _ => @sys_exit A)).
Proof.
  intros w w' H. unfold bind, print, sys_exit in H.
  inversion H; subst. cbn [stdout]. eauto.
Qed.

Lemma exits_imread (p : path) : exits_on_tesseract_error (imread p).
Proof. apply exits_never. intros w. discriminate. Qed.

Lemma exits_imwrite (p : path) (roi : Cv.region) :
  exits_on_tesseract_error (imwrite p roi).
Proof.
  apply exits_never. intros w. unfold imwrite.
  destruct (Cv.is_empty roi); [discriminate|].
  destruct (Cv.fits_jpeg roi); [|discriminate].
  destruct (os_accepts w p); discriminate.
Qed.

Lemma exits_video_frames (p : path) : exits_on_tesseract_error (video_frames p).
Proof. apply exits_never. intros w. discriminate. Qed.

Lemma exits_rename_file (src dst : path) :
  exits_on_tesseract_error (rename_file src dst).
Proof.
  apply exits_never. intros w. unfold rename_file.
  repeat match goal with
         | |- context [if ?b then _ else _] => destruct b
         | |- context [match files w src with _ => _ end] =>
             destruct (files w src)
         end; discriminate.
Qed.

Ltac exits_step :=
  first
    [ apply exits_tesseract_error
    | apply exits_ret
    | apply exits_print
    | apply exits_debug_print
    | apply exits_imread
    | apply exits_imwrite
    | apply exits_video_frames
    | apply exits_rename_file
    | apply exits_lift;
      first [ apply truediv_no_exit | apply to_int_no_exit
            | apply py_mod_no_exit | apply with_suffix_no_exit
            | apply scan_lines_no_exit | apply cvtColor_no_exit ]
    | apply exits_bind; [|intros ?]
    | match goal with
      | |- exits_on_tesseract_error (match ?x with _ => _ end) => destruct x
      | |- exits_on_tesseract_error (if ?b then _ else _) => destruct b
      end ].

Ltac keeps_step :=
  first
    [ apply keeps_files_ret
    | apply keeps_files_print
    | apply keeps_files_debug_print
    | apply keeps_files_lift
    | apply keeps_files_sys_exit
    | apply keeps_files_bind; [|intros ?]
    | match goal with
      | |- keeps_files (match ?x with _ => _ end) => destruct x
      | |- keeps_files (if ?b then _ else _) => destruct b
      end ].

Section ProgramFacts.

Variable image_to_string : Cv.gray -> option str.

Lemma region_of_interest_exits frame fraction debug :
  exits_on_tesseract_error (region_of_interest frame fraction debug).
Proof. unfold region_of_interest. repeat exits_step. Qed.

Lemma region_of_interest_keeps_files frame fraction debug :
  keeps_files (region_of_interest frame fraction debug).
Proof. unfold region_of_interest. repeat keeps_step. Qed.

Lemma banner_text_from_frame_exits frame fraction debug file_path :
  exits_on_tesseract_error
    (banner_text_from_frame image_to_string frame fraction debug file_path).
Proof.
  unfold banner_text_from_frame.
  apply exits_bind; [apply region_of_interest_exits | intros roi].
  repeat exits_step.
Qed.

Lemma banner_text_from_frame_keeps_files frame fraction debug :
  keeps_files
    (banner_text_from_frame image_to_string frame fraction debug None).
Proof.
  unfold banner_text_from_frame.
  apply keeps_files_bind; [apply region_of_interest_keeps_files | intros roi].
  repeat keeps_step.
Qed.

Lemma video_loop_exits stream frame_count frame_interval fraction debug :
  exits_on_tesseract_error
    (video_loop image_to_string stream frame_count frame_interval
                fraction debug).
Proof.
  revert frame_count; induction stream as [|frame rest IH];
    intros frame_count; cbn [video_loop]; [apply exits_ret|].
  apply exits_bind; [apply exits_lift, py_mod_no_exit | intros r].
  destruct (r =? 0)%Z; [|apply IH].
  apply exits_bind; [apply banner_text_from_frame_exits | intros t].
  apply exits_ret.
Qed.

Lemma extract_date_time_exits path_file debug :
  exits_on_tesseract_error (extract_date_time image_to_string path_file debug).
Proof.
  unfold extract_date_time, banner_text_of,
    extract_banner_text_from_video, extract_banner_text_from_image.
  repeat first [ apply video_loop_exits
               | apply banner_text_from_frame_exits
               | exits_step ].
Qed.

Lemma process_file_exits args file_path :
  exits_on_tesseract_error (process_file image_to_string args file_path).
Proof.
  unfold process_file.
  repeat first [ apply extract_date_time_exits | exits_step ].
Qed.

End ProgramFacts.

(* ------------------------------------------------------------------ *)
(** ** A recognizer error *)

(** C5 as stated fails: the recognizer raises on the first of two files, the
    run ends with [sys.exit()] after "Tesseract error", and the second
    file, which on its own is reported with its new name, is never reached. *)
Lemma recognizer_error_is_fatal_for_batch :
  fst (main_loop Example.fails_on_large Example.dry_run
         [Example.photo; Example.jpeg] Example.world0) = SysExit /\
  stdout (snd (main_loop Example.fails_on_large Example.dry_run
                 [Example.photo; Example.jpeg] Example.world0)) =
  [Out (lit "Tesseract error")] /\
  stdout (snd (main_loop Example.fails_on_large Example.dry_run
                 [Example.jpeg] Example.world0)) =
  [Out (lit "rename IMG_0002.jpeg to 2023-06-09_134151_FOSA_01_IMG_0002.jpeg");
   separator].
Proof. repeat split; vm_compute; reflexivity. Qed.

(* ------------------------------------------------------------------ *)
(** ** A still image that does not decode *)

Lemma load_error_has_no_banner :
  scan_lines (PyStr.split newline load_error) = Ret None.
Proof. vm_compute. reflexivity. Qed.

Lemma still_is_not_video (path_file : path) :
  is_still path_file = true -> is_video path_file = false.
Proof.
  unfold is_still, is_video, member. cbn [existsb].
  generalize (PyStr.lower (PyPath.suffix path_file)). intros s H.
  rewrite orb_false_r in *. apply orb_true_iff in H.
  destruct H as [H|H]; unfold str_eqb in H;
    match type of H with
    | (if ?d then _ else _) = _ => destruct d as [->|]; [|discriminate]
    end; reflexivity.
Qed.

(** C4, as the program has it. For a still-image path whose file does not
    decode, the sampler returns the fixed message "Error: Unable to load the
    image. ..." as if it were banner text; the parser finds no date in it,
    so the file ends with the same [{"error": ""}] as any file without a
    banner, with nothing printed and nothing written. *)
Theorem undecodable_still_is_no_banner
    (image_to_string : Cv.gray -> option str) (path_file : path)
    (debug : bool) (w : world) :
  is_still path_file = true ->
  fst (imread path_file w) = Ret None ->
  extract_banner_text_from_image image_to_string path_file F64.lit_0_15
                                 debug w = (Ret load_error, w) /\
  extract_date_time image_to_string path_file debug w = (Ret (Error []), w).
Proof.
  intros Hs Hr.
  assert (E : imread path_file w = (Ret None, w)).
  { unfold imread in *. cbn [fst] in Hr. rewrite Hr. reflexivity. }
  assert (Ei : extract_banner_text_from_image image_to_string path_file
                 F64.lit_0_15 debug w = (Ret load_error, w)).
  { unfold extract_banner_text_from_image, bind. rewrite E. reflexivity. }
  split; [exact Ei|].
  unfold extract_date_time, banner_text_of.
  rewrite Hs, (still_is_not_video _ Hs).
  unfold bind at 1. unfold bind at 1. cbn [ret].
  unfold bind at 1. unfold bind at 1. rewrite Ei. cbn [ret].
  unfold bind, lift. rewrite load_error_has_no_banner. reflexivity.
Qed.

(** C4 as stated fails: the file of [Example.broken] does not decode, yet
    sampling returns a text instead of failing, and the file is reported
    exactly as a decodable image on which no banner is read. *)
Lemma undecodable_still_not_told_apart :
  fst (imread Example.broken Example.world0) = Ret None /\
  fst (extract_banner_text_from_image Example.reads_banner Example.broken
         F64.lit_0_15 false Example.world0) = Ret load_error /\
  fst (extract_date_time Example.reads_banner Example.broken false
         Example.world0) = Ret (Error []) /\
  fst (extract_date_time (fun _ => Some []) Example.jpeg false
         Example.world0) = Ret (Error []) /\
  stdout (snd (process_file Example.reads_banner Example.dry_run
                 Example.broken Example.world0)) =
  [Out (lit "Date and time not found in pics/IMG_0004.jpg"); separator].
Proof. repeat split; vm_compute; reflexivity. Qed.

(* ------------------------------------------------------------------ *)
(** ** The rename planner *)

Lemma debug_print_returns (debug : bool) (l : line) (w : world) :
  debug_print debug l w = (Ret tt, snd (debug_print debug l w)).
Proof. destruct debug; reflexivity. Qed.

(** A record that [extract_date_time] returns has a non-empty date and a
    non-empty time, and its camera id is present. *)
Lemma extract_date_time_info
    (image_to_string : Cv.gray -> option str) (path_file : path)
    (debug : bool) (w w1 : world) (r : info) :
  extract_date_time image_to_string path_file debug w = (Ret (Info r), w1) ->
  truthy (date r) = true /\ truthy (time r) = true /\
  exists c, cam_id r = Some c.
Proof.
  unfold extract_date_time. unfold bind at 1.
  destruct (banner_text_of image_to_string path_file debug w)
    as [[[t|]| |] w0]; try discriminate.
  unfold bind at 1, lift.
  destruct (scan_lines (PyStr.split newline t)) as [[[d t2]|]| |] eqn:E;
    try discriminate.
  destruct (scan_lines_found _ _ _ E) as (r' & -> & _ & _ & _ & Hd & Ht & Hc).
  unfold bind.
  rewrite (debug_print_returns debug (Dbg "text" _) w0).
  rewrite (debug_print_returns debug (Dbg "text2" _)).
  rewrite (debug_print_returns debug (Dbg "cam_id" _)).
  cbn [ret]. intros H. inversion H; subst. auto.
Qed.

(** C7. For every file whose banner parse produced a record: when the
    file's base name holds exactly two hyphens, the planner prints that it
    is already renamed and renames nothing, with [--rename] or without it,
    whatever else the name holds; with any other number of hyphens it
    renames the file and reports it ([--rename]) or reports the rename it
    would do (dry run). *)
Theorem two_hyphens_mean_already_renamed
    (image_to_string : Cv.gray -> option str) (args : arguments)
    (file_path : path) (w w1 : world) (r : info) :
  extract_date_time image_to_string file_path (arg_debug args)
    (snd (debug_print (arg_debug args) (Dbg "file_path" [VPath file_path]) w))
  = (Ret (Info r), w1) ->
  let w2 :=
    snd (debug_print (arg_debug args)
           (Dbg "temperature" [VOpt (temperature_c r); VOpt (temperature_f r)])
           w1) in
  let new_file_path := target_path args file_path r in
  (PyStr.count (lit "-") (name file_path) = 2 ->
   process_file image_to_string args file_path w =
   (Ret tt,
    {| stdout := (stdout w2
                  ++ [Out (name file_path ++ lit " already renammed")])
                 ++ [separator];
       files := files w1;
       is_dir := is_dir w1 |})) /\
  (PyStr.count (lit "-") (name file_path) <> 2 ->
   arg_rename args = true ->
   process_file image_to_string args file_path w =
   (rename_file file_path new_file_path ;;
    print (Out (name file_path ++ lit " renamed to " ++ name new_file_path)) ;;
    print separator)%prog w2) /\
  (PyStr.count (lit "-") (name file_path) <> 2 ->
   arg_rename args = false ->
   process_file image_to_string args file_path w =
   (Ret tt,
    {| stdout := (stdout w2
                  ++ [Out (lit "rename " ++ name file_path ++ lit " to "
                           ++ name new_file_path)])
                 ++ [separator];
       files := files w1;
       is_dir := is_dir w1 |})).
Proof.
  intros H w2 new_file_path.
  destruct (extract_date_time_info _ _ _ _ _ _ H) as (Hd & Ht & _).
  assert (F : files w2 = files w1 /\ is_dir w2 = is_dir w1).
  { subst w2. destruct (arg_debug args); split; reflexivity. }
  destruct F as [Ff Fd].
  assert (E : process_file image_to_string args file_path w =
              ((if (PyStr.count (lit "-") (name file_path) =? 2)%nat then
                  print (Out (name file_path ++ lit " already renammed"))
                else if arg_rename args then
                  rename_file file_path new_file_path ;;
                  print (Out (name file_path ++ lit " renamed to "
                              ++ name new_file_path))
                else
                  print (Out (lit "rename " ++ name file_path ++ lit " to "
                              ++ name new_file_path))) ;;
               print separator)%prog w2).
  { unfold process_file. unfold bind at 1.
    rewrite debug_print_returns. unfold bind at 1. rewrite H.
    unfold bind at 1. rewrite debug_print_returns.
    rewrite Hd, Ht. reflexivity. }
  rewrite E. repeat split.
  - intros C. apply Nat.eqb_eq in C. rewrite C.
    unfold bind, print. cbn [stdout files is_dir].
    rewrite Ff, Fd. reflexivity.
  - intros C R. apply Nat.eqb_neq in C. rewrite C, R.
    unfold bind.
    destruct (rename_file file_path new_file_path w2) as [[[]| |] w3];
      reflexivity.
  - intros C R. apply Nat.eqb_neq in C. rewrite C, R.
    unfold bind, print. cbn [stdout files is_dir].
    rewrite Ff, Fd. reflexivity.
Qed.

(* ------------------------------------------------------------------ *)
(** ** The crop written beside a still image *)

Lemma bind_keeps_snd {A B} (m : M A) (k : A -> M B) (w : world) :
  (forall a, keeps_files (k a)) ->
  files (snd (bind m k w)) = files (snd (m w)).
Proof.
  intros Hk.
  destruct (bind_cases m k w)
    as [(a & w1 & E & ->) | [(e & w1 & E & ->) | (w1 & E & ->)]];
    rewrite E; cbn [snd]; [apply Hk | reflexivity | reflexivity].
Qed.

(** The region computed does not depend on the world. *)
Lemma region_of_interest_fst (frame : Cv.frame) (fraction : F64.float)
    (debug : bool) (w w' : world) :
  fst (region_of_interest frame fraction debug w) =
  fst (region_of_interest frame fraction debug w').
Proof.
  unfold region_of_interest.
  destruct (Cv.shape frame) as [h wd].
  unfold bind, lift, ret.
  rewrite (debug_print_returns debug _ w), (debug_print_returns debug _ w').
  destruct (wd >? 2592)%Z.
  - destruct (F64.truediv h wd) as [ratio| |]; try reflexivity.
    destruct (F64.to_int (F64.mul (F64.of_int 1280) ratio)) as [nh| |];
      try reflexivity.
    cbn [Cv.shape].
    rewrite (debug_print_returns debug _ (snd (debug_print debug _ w))).
    rewrite (debug_print_returns debug _ (snd (debug_print debug _ w'))).
    cbn [Cv.shape].
    destruct (F64.to_int (F64.mul (F64.of_int nh) fraction)); reflexivity.
  - destruct (Cv.shape frame) as [h' wd'].
    destruct (F64.to_int (F64.mul (F64.of_int h') fraction)); reflexivity.
Qed.

Lemma suffix_of_empty_name (p : path) : name p = [] -> PyPath.suffix p = [].
Proof. intros E. unfold PyPath.suffix. rewrite E. reflexivity. Qed.

Lemma still_has_name (p : path) : is_still p = true -> name p <> [].
Proof.
  intros H E. unfold is_still in H.
  rewrite (suffix_of_empty_name p E) in H. discriminate.
Qed.

(** [with_suffix(".jpeg")] on a path whose suffix is ".jpeg" already is the
    path itself. *)
Lemma with_suffix_same (p : path) :
  PyPath.suffix p = lit ".jpeg" ->
  PyPath.with_suffix p (lit ".jpeg") = Ret p.
Proof.
  intros E. unfold PyPath.with_suffix. rewrite E.
  destruct p as [dir nm]. cbn [name parent] in *.
  unfold PyPath.suffix in E. cbn [name] in E.
  destruct nm as [|c nm]; [discriminate|].
  destruct (PyPath.rfind "." (c :: nm)) as [i|]; [|discriminate].
  destruct ((0 <? i) && (i <? length (c :: nm) - 1)) eqn:B; [|discriminate].
  apply andb_true_iff in B. destruct B as [_ B]. apply Nat.ltb_lt in B.
  change (truthy (lit ".jpeg")) with true. cbv iota.
  assert (L : length (c :: nm) - length (lit ".jpeg") = i).
  { rewrite <- E. rewrite length_skipn. lia. }
  rewrite L. rewrite <- E. rewrite firstn_skipn. reflexivity.
Qed.

(** What the acceptance of a path rests on. *)
Lemma os_accepts_same_dirs (w w' : world) (p : path) :
  is_dir w' = is_dir w -> os_accepts w' p = os_accepts w p.
Proof. intros E. unfold os_accepts. rewrite E. reflexivity. Qed.

Lemma keeps_dirs_bind {A B} (m : M A) (k : A -> M B) :
  keeps_dirs m -> (forall a, keeps_dirs (k a)) -> keeps_dirs (bind m k).
Proof.
  intros Hm Hk w. specialize (Hm w).
  destruct (bind_cases m k w)
    as [(a & w1 & E & ->) | [(e & w1 & E & ->) | (w1 & E & ->)]];
    rewrite E in Hm; cbn [snd] in *; [rewrite Hk|..]; exact Hm.
Qed.

Lemma keeps_dirs_quiet {A} (m : M A) :
  (forall w, is_dir (snd (m w)) = is_dir w) -> keeps_dirs m.
Proof. intros H. exact H. Qed.

Lemma keeps_dirs_debug_print (debug : bool) (l : line) :
  keeps_dirs (debug_print debug l).
Proof. intros w. destruct debug; reflexivity. Qed.

Ltac dirs_step :=
  first
    [ apply keeps_dirs_debug_print
    | apply keeps_dirs_quiet; reflexivity
    | apply keeps_dirs_bind; [|intros ?]
    | match goal with
      | |- keeps_dirs (match ?x with _ => _ end) => destruct x
      | |- keeps_dirs (if ?b then _ else _) => destruct b
      end ].

Lemma region_of_interest_keeps_dirs frame fraction debug :
  keeps_dirs (region_of_interest frame fraction debug).
Proof. unfold region_of_interest. repeat dirs_step. Qed.

(** A rename that the system accepts moves the file. *)
Lemma rename_when_accepted (src dst : path) (w : world) (c : content) :
  os_accepts w dst = true ->
  files w src = Some c ->
  rename_file src dst w =
  (Ret tt, {| stdout := stdout w;
              files := set_file (set_file (files w) src None) dst (Some c);
              is_dir := is_dir w |}).
Proof.
  unfold os_accepts, name_fits. intros A F.
  apply andb_true_iff in A. destruct A as [A N].
  apply andb_true_iff in A. destruct A as [D X].
  apply andb_true_iff in N. destruct N as [N L].
  apply andb_true_iff in N. destruct N as [Z S].
  apply negb_true_iff in X. apply negb_true_iff in Z.
  unfold rename_file. rewrite Z, L, D, F, S, X. reflexivity.
Qed.

(** A rename that the system does not accept raises and changes nothing. *)
Lemma rename_when_refused (src dst : path) (w : world) :
  os_accepts w dst = false ->
  exists e, rename_file src dst w = (Throw e, w).
Proof.
  unfold os_accepts, name_fits, rename_file. intros A.
  destruct (has_nul (PyPath.to_str dst)); [eauto|].
  destruct (utf8_length (PyPath.to_str dst) <=? 4095); cbn [negb]; [|eauto].
  destruct (is_dir w (parent dst)); cbn [negb]; [|eauto].
  destruct (files w src); [|eauto].
  destruct (utf8_length (name dst) <=? 255); cbn [negb]; [|eauto].
  destruct (is_dir w (PyPath.to_str dst)); [eauto|].
  discriminate.
Qed.

Section StillImage.

Variable image_to_string : Cv.gray -> option str.

Lemma banner_text_from_frame_writes frame fraction debug file_path target
    roi w :
  fst (region_of_interest frame fraction debug w) = Ret roi ->
  Cv.is_empty roi = false ->
  Cv.fits_jpeg roi = true ->
  PyPath.with_suffix file_path (lit ".jpeg") = Ret target ->
  os_accepts w target = true ->
  files (snd (banner_text_from_frame image_to_string frame fraction debug
                (Some file_path) w)) =
  set_file (files w) target (Some (Still (Cv.Reread roi))).
Proof.
  intros Hr He Hj Ht Ha. unfold banner_text_from_frame. unfold bind at 1.
  pose proof (region_of_interest_keeps_files frame fraction debug w) as K.
  pose proof (region_of_interest_keeps_dirs frame fraction debug w) as Kd.
  destruct (region_of_interest frame fraction debug w) as [o w1].
  cbn [fst snd] in *. subst o.
  rewrite bind_keeps_snd by (intros _; repeat keeps_step).
  rewrite Ht. unfold bind, lift, imwrite.
  rewrite He, Hj, (os_accepts_same_dirs w w1 target Kd), Ha.
  cbn [snd files]. rewrite K. reflexivity.
Qed.

Lemma extract_date_time_writes path_file debug frame target roi w :
  is_still path_file = true ->
  files w path_file = Some (Still frame) ->
  fst (region_of_interest frame F64.lit_0_15 debug w) = Ret roi ->
  Cv.is_empty roi = false ->
  Cv.fits_jpeg roi = true ->
  PyPath.with_suffix path_file (lit ".jpeg") = Ret target ->
  os_accepts w target = true ->
  files (snd (extract_date_time image_to_string path_file debug w)) =
  set_file (files w) target (Some (Still (Cv.Reread roi))).
Proof.
  intros Hs Hf Hr He Hj Ht Ha. unfold extract_date_time.
  rewrite bind_keeps_snd by (intros ?; repeat keeps_step).
  unfold banner_text_of. rewrite Hs, (still_is_not_video _ Hs).
  unfold bind at 1. cbn [ret].
  rewrite bind_keeps_snd by (intros ?; repeat keeps_step).
  unfold extract_banner_text_from_image, bind, imread. rewrite Hf.
  apply banner_text_from_frame_writes; assumption.
Qed.

(** The recognizer raising on a crop that is not empty ends the call with
    [sys.exit()]. *)
Lemma recognizer_raise_exits frame fraction debug file_path roi w :
  fst (region_of_interest frame fraction debug w) = Ret roi ->
  Cv.is_empty roi = false ->
  (forall q, file_path = Some q -> name q <> []) ->
  image_to_string (Cv.Gray roi) = None ->
  exists w',
    banner_text_from_frame image_to_string frame fraction debug file_path w =
    (SysExit, w').
Proof.
  intros Hr He Hn Ho. unfold banner_text_from_frame. unfold bind at 1.
  destruct (region_of_interest frame fraction debug w) as [o w1].
  cbn [fst] in Hr. subst o.
  assert (C : forall w2 : world,
             exists w',
               bind (lift (Cv.cvtColor roi))
                 (fun roi_gray =>
                    match image_to_string roi_gray with
                    | Some extracted_text =>
                        bind (debug_print debug
                                (Dbg "extracted_text" [VStr extracted_text]))
                             (fun _ => ret extracted_text)
                    | None =>
                        bind (print (Out (lit "Tesseract error")))
                             (fun _ => sys_exit)
                    end) w2 = (SysExit, w')).
  { intros w2. unfold bind, lift, Cv.cvtColor. rewrite He, Ho.
    eexists. reflexivity. }
  destruct file_path as [q|].
  - unfold PyPath.with_suffix. pose proof (Hn q eq_refl) as N.
    destruct (name q) as [|x nm]; [congruence|].
    unfold bind at 1. unfold bind at 1. unfold lift, imwrite. rewrite He.
    destruct (Cv.fits_jpeg roi); cbn [negb];
      destruct (truthy (PyPath.suffix q));
      try match goal with
          | |- context [os_accepts w1 ?t] => destruct (os_accepts w1 t)
          end; apply C.
  - unfold bind at 1. cbn [ret]. apply C.
Qed.

(** The recognizer raising on the crop of the frame sampled for a file
    ends [extract_date_time] with [sys.exit()]. *)
Lemma extract_date_time_recognizer_raises path_file debug frame roi w :
  sampled w path_file frame ->
  fst (region_of_interest frame F64.lit_0_15 debug w) = Ret roi ->
  Cv.is_empty roi = false ->
  image_to_string (Cv.Gray roi) = None ->
  exists w',
    extract_date_time image_to_string path_file debug w = (SysExit, w').
Proof.
  intros [[Hs Hf] | [Hv [later Hf]]] Hr He Ho;
    unfold extract_date_time, banner_text_of.
  - rewrite Hs, (still_is_not_video _ Hs).
    destruct (recognizer_raise_exits frame F64.lit_0_15 debug (Some path_file)
                roi w Hr He) as [w' E]; [|exact Ho|].
    { intros q Hq. inversion Hq; subst. apply still_has_name. exact Hs. }
    exists w'. unfold bind at 1. unfold bind at 1. cbn [ret].
    unfold bind at 1. unfold bind at 1.
    unfold extract_banner_text_from_image, bind at 1, imread. rewrite Hf.
    rewrite E. reflexivity.
  - rewrite Hv.
    destruct (recognizer_raise_exits frame F64.lit_0_15 debug None
                roi w Hr He) as [w' E]; [|exact Ho|].
    { intros q Hq. discriminate. }
    exists w'. unfold bind at 1. unfold bind at 1.
    unfold extract_banner_text_from_video, bind at 1, video_frames.
    rewrite Hf. cbn [video_loop]. unfold bind at 1, lift.
    rewrite (py_mod_zero 30) by reflexivity. cbn [Z.eqb].
    unfold bind at 1. rewrite E. reflexivity.
Qed.

End StillImage.

(** C10, as the program has it. Processing a still image that decodes,
    whose banner crop is not empty and within what the JPEG encoder takes,
    and whose crop path the system accepts (the path with the suffix
    replaced by ".jpeg": its directory exists, it is not a directory and
    it is within the length limits), writes the colour crop, before any
    grayscale conversion, to that path: in every mode, with or without
    [--debug] and [--rename], once the banner text has been extracted, and
    so at the end of a dry run; for an input whose suffix is ".jpeg"
    already that path is the source file, which from then on holds its own
    cropped banner. *)
Theorem still_image_crop_is_written
    (image_to_string : Cv.gray -> option str) (args : arguments)
    (file_path target : path) (w : world) (frame : Cv.frame)
    (roi : Cv.region) :
  is_still file_path = true ->
  files w file_path = Some (Still frame) ->
  fst (region_of_interest frame F64.lit_0_15 (arg_debug args) w) = Ret roi ->
  Cv.is_empty roi = false ->
  Cv.fits_jpeg roi = true ->
  PyPath.with_suffix file_path (lit ".jpeg") = Ret target ->
  os_accepts w target = true ->
  files (snd (extract_date_time image_to_string file_path (arg_debug args) w))
        target = Some (Still (Cv.Reread roi)) /\
  (arg_rename args = false ->
   files (snd (process_file image_to_string args file_path w)) target =
   Some (Still (Cv.Reread roi))) /\
  (PyPath.suffix file_path = lit ".jpeg" -> target = file_path).
Proof.
  intros Hs Hf Hr He Hj T Ha.
  assert (S : forall fs : path -> option content,
             set_file fs target (Some (Still (Cv.Reread roi))) target =
             Some (Still (Cv.Reread roi))).
  { intros fs. unfold set_file. destruct (path_eq_dec target target); congruence. }
  split; [|split].
  - rewrite (extract_date_time_writes image_to_string _ _ _ _ _ _
               Hs Hf Hr He Hj T Ha).
    apply S.
  - intros R. unfold process_file. unfold bind at 1.
    rewrite debug_print_returns.
    rewrite bind_keeps_snd.
    + rewrite (extract_date_time_writes image_to_string file_path
                 (arg_debug args) frame target roi).
      * apply S.
      * exact Hs.
      * rewrite keeps_files_debug_print. exact Hf.
      * rewrite <- Hr. apply region_of_interest_fst.
      * exact He.
      * exact Hj.
      * exact T.
      * rewrite (os_accepts_same_dirs w); [exact Ha|].
        apply keeps_dirs_debug_print.
    + intros d. rewrite R. repeat keeps_step.
  - intros E. rewrite (with_suffix_same _ E) in T. congruence.
Qed.

(** C10 as stated fails: the five-row image "IMG_0006.jpeg" decodes, but
    its bottom 15 percent has no row; [cv2.imwrite] raises [cv2.error] on
    the empty crop, processing ends with that exception, and the file still
    holds the image, not a crop. *)
Lemma tiny_still_crop_is_not_written :
  is_still Sample.tiny = true /\
  files Sample.tiny_world Sample.tiny = Some (Still Sample.tiny_frame) /\
  PyPath.with_suffix Sample.tiny (lit ".jpeg") = Ret Sample.tiny /\
  fst (process_file Example.reads_banner Example.dry_run Sample.tiny
         Sample.tiny_world) = Throw CvError /\
  files (snd (process_file Example.reads_banner Example.dry_run Sample.tiny
                Sample.tiny_world)) Sample.tiny =
  Some (Still Sample.tiny_frame).
Proof. repeat split; vm_compute; reflexivity. Qed.

(** C5, as the program has it. When the recognizer raises on the crop of
    the frame sampled for a file (the image of a still, the first frame of
    a video; the crop not empty, so that the recognizer is reached),
    "Tesseract error" is printed and the whole run ends there through
    [sys.exit()]: the files after it are not processed. *)
Theorem recognizer_error_ends_run
    (image_to_string : Cv.gray -> option str) (args : arguments)
    (file_path : path) (rest : list path) (w : world)
    (frame : Cv.frame) (roi : Cv.region) :
  sampled w file_path frame ->
  fst (region_of_interest frame F64.lit_0_15 (arg_debug args) w) = Ret roi ->
  Cv.is_empty roi = false ->
  image_to_string (Cv.Gray roi) = None ->
  exists w',
    process_file image_to_string args file_path w = (SysExit, w') /\
    main_loop image_to_string args (file_path :: rest) w = (SysExit, w') /\
    exists l, stdout w' = l ++ [Out (lit "Tesseract error")].
Proof.
  intros Hsm Hr He Ho.
  set (w0 := snd (debug_print (arg_debug args)
                    (Dbg "file_path" [VPath file_path]) w)).
  assert (Hsm0 : sampled w0 file_path frame).
  { unfold sampled in *. subst w0. rewrite keeps_files_debug_print.
    exact Hsm. }
  assert (Hr0 : fst (region_of_interest frame F64.lit_0_15 (arg_debug args) w0)
                = Ret roi).
  { rewrite <- Hr. apply region_of_interest_fst. }
  destruct (extract_date_time_recognizer_raises image_to_string file_path
              (arg_debug args) frame roi w0 Hsm0 Hr0 He Ho) as [w' E].
  assert (P : process_file image_to_string args file_path w = (SysExit, w')).
  { unfold process_file. unfold bind at 1. rewrite debug_print_returns.
    fold w0. unfold bind at 1. rewrite E. reflexivity. }
  exists w'. split; [exact P|]. split.
  - cbn [main_loop]. unfold bind. rewrite P. reflexivity.
  - exact (process_file_exits image_to_string args file_path w w' P).
Qed.


(* ------------------------------------------------------------------ *)
(** ** Camera-id recovery *)

(** The camera id of a record is the head of the tokens of [text2] sorted
    by decreasing length. *)
Lemma cam_id_of_text2 (line text2 : str) (r : info) :
  scan_line line = Ret (Return (Info r) text2) ->
  cam_id r =
  match PyStr.sorted_by_len_desc (PyStr.split " " text2) with
  | t :: _ => Some t
  | [] => None
  end /\ PyStr.contains (lit "  ") text2 = false.
Proof.
  unfold scan_line.
  destruct (Re.search Re.date_re line) as [raw_date|]; [|discriminate].
  destruct (index (PyStr.split "-" raw_date) 2) as [yyyy| |];
    cbn [obind]; try discriminate.
  destruct (index (PyStr.split "-" raw_date) 0) as [mm| |];
    cbn [obind]; try discriminate.
  destruct (index (PyStr.split "-" raw_date) 1) as [dd| |];
    cbn [obind]; try discriminate.
  destruct (Re.search Re.time_re line) as [raw_time|]; [|discriminate].
  intros H. inversion H; subst. cbn [cam_id].
  split; [reflexivity | apply collapse_spaces_clean].
Qed.

(** The longest-token rule: the camera id is a token of the collapsed
    remainder, no token is longer, and the tokens before it are shorter. *)
Lemma cam_id_first_longest (line text2 : str) (r : info) :
  scan_line line = Ret (Return (Info r) text2) ->
  exists c pre post,
    cam_id r = Some c /\
    PyStr.split " " text2 = pre ++ c :: post /\
    Forall (fun u => length u < length c) pre /\
    Forall (fun u => length u <= length c) post.
Proof.
  intros H. destruct (cam_id_of_text2 _ _ _ H) as [E _].
  destruct (longest_token_exists text2) as (t & rest & S).
  rewrite S in E.
  destruct (sorted_head_first_longest _ _ _ S) as (pre & post & Hs & Hp & Hq).
  exists t, pre, post. auto.
Qed.

(** C3, where the program departs from it. On the line
    "06-09-2023 13:41:51" nothing is left once date and time are removed,
    and the camera id comes out as the empty string, present, instead of
    absent: [" ".split(" ")] is [["", ""]], so indexing never fails. The
    caller's test [cam_id is None] is then false, the [--cam-id] default
    "TRAP7" is not used, and the new name has an empty camera-id field. *)
Theorem empty_remainder_gives_empty_cam_id :
  parse_banner_text (Some (lit "06-09-2023 13:41:51")) =
  Ret (Info {| text := lit "06-09-2023 13:41:51";
               cam_id := Some [];
               date := lit "2023-06-09";
               time := lit "134151";
               temperature_c := None;
               temperature_f := None |}) /\
  stdout (snd (process_file Example.reads_date_time
                 Example.dry_run_with_default Example.jpeg Example.world0)) =
  [Out (lit "rename IMG_0002.jpeg to 2023-06-09_134151__IMG_0002.jpeg");
   separator].
Proof. split; vm_compute; reflexivity. Qed.

(* ------------------------------------------------------------------ *)
(** ** The theorems at work on the example directory *)


(** C9 on a two-frame video, with the default interval of 30. *)
Lemma video_sampler_uses_first_frame_example :
  (0 < 30)%Z /\
  extract_banner_text_from_video Example.reads_banner Example.clip 30
    F64.lit_0_15 false Example.world0 =
  sample_first_frame Example.reads_banner Example.clip F64.lit_0_15 false
    Example.world0.
Proof.
  split; [reflexivity|].
  apply (video_sampler_uses_first_frame Example.reads_banner Example.clip 30
           F64.lit_0_15 false Example.world0 eq_refl).
Defined.

(** C4 on the file that does not decode. *)
Lemma undecodable_still_is_no_banner_example :
  is_still Example.broken = true /\
  fst (imread Example.broken Example.world0) = Ret None /\
  extract_date_time Example.reads_banner Example.broken false Example.world0 =
  (Ret (Error []), Example.world0).
Proof.
  split; [reflexivity|]. split; [reflexivity|].
  apply (undecodable_still_is_no_banner Example.reads_banner Example.broken
           false Example.world0 eq_refl eq_refl).
Defined.

(** C7 on a name with exactly two hyphens, under [--rename]. *)
Lemma two_hyphens_mean_already_renamed_example :
  PyStr.count (lit "-") (name Example.renamed) = 2 /\
  stdout (snd (process_file Example.reads_banner Example.execute
                 Example.renamed Example.world0)) =
  [Out (lit "2023-06-09_134151_FOSA_01_IMG_0005.JPG already renammed");
   separator] /\
  files (snd (process_file Example.reads_banner Example.execute
                Example.renamed Example.world0)) Example.renamed =
  Some (Still Example.small_frame).
Proof.
  split; [reflexivity|].
  assert (H : extract_date_time Example.reads_banner Example.renamed
                (arg_debug Example.execute)
                (snd (debug_print (arg_debug Example.execute)
                        (Dbg "file_path" [VPath Example.renamed])
                        Example.world0)) =
              (Ret (Info {| text := Example.banner;
                            cam_id := Some (lit "FOSA_01");
                            date := lit "2023-06-09";
                            time := lit "134151";
                            temperature_c := Some (lit "23C");
                            temperature_f := Some (lit "73F") |}),
               snd (extract_date_time Example.reads_banner Example.renamed
                      false Example.world0))).
  { vm_compute. reflexivity. }
  rewrite (proj1 (two_hyphens_mean_already_renamed Example.reads_banner
                    Example.execute Example.renamed Example.world0 _ _ H)
             eq_refl).
  split; vm_compute; reflexivity.
Defined.


(* ================================================================== *)
(** * Further properties of the parser *)

(** [re.search] returns the leftmost match: no suffix that starts earlier
    matches. *)
Lemma search_leftmost (re : Re.regex) (s m : str) :
  Re.search re s = Some m ->
  exists pre suf,
    s = pre ++ suf /\ Re.match_here re suf = Some m /\
    forall pre' suf',
      s = pre' ++ suf' -> length pre' < length pre ->
      Re.match_here re suf' = None.
Proof.
  induction s as [|c s IH]; cbn [Re.search]; intros H.
  - destruct (Re.match_here re []) eqn:E; [|discriminate].
    inversion H; subst. exists [], []. repeat split; [exact E|].
    intros pre' suf' _ L. cbn in L. lia.
  - destruct (Re.match_here re (c :: s)) eqn:E.
    + inversion H; subst. exists [], (c :: s). repeat split; [exact E|].
      intros pre' suf' _ L. cbn in L. lia.
    + destruct (IH H) as (pre & suf & -> & Hm & Hl).
      exists (c :: pre), suf. repeat split; [exact Hm|].
      intros pre' suf' Hs L. destruct pre' as [|c' pre'].
      * cbn in Hs. subst suf'. exact E.
      * cbn in Hs. inversion Hs; subst. apply (Hl pre' suf'); [assumption|].
        cbn in L. lia.
Qed.

(** Everything [scan_line] puts in a record, read off the line. *)
Lemma scan_line_inv (line text2 : str) (r : info) :
  scan_line line = Ret (Return (Info r) text2) ->
  exists a b c d e f g h a' b' c' d' e' f' : ascii,
    Re.search Re.date_re line = Some [a; b; "-"; c; d; "-"; e; f; g; h]%char /\
    forallb PyStr.isdigit [a; b; c; d; e; f; g; h] = true /\
    Re.search Re.time_re line = Some [a'; b'; ":"; c'; d'; ":"; e'; f']%char /\
    forallb PyStr.isdigit [a'; b'; c'; d'; e'; f'] = true /\
    text r = line /\
    date r = [e; f; g; h; "-"; a; b; "-"; c; d]%char /\
    time r = [a'; b'; c'; d'; e'; f'] /\
    temperature_f r = option_map PyStr.strip (Re.search Re.temp_f_re line) /\
    temperature_c r = option_map PyStr.strip (Re.search Re.temp_c_re line) /\
    text2 =
    collapse_spaces
      (remove_if_set (temperature_f r)
         (remove_if_set (temperature_c r)
            (PyStr.replace [a'; b'; ":"; c'; d'; ":"; e'; f']%char []
               (PyStr.replace [a; b; "-"; c; d; "-"; e; f; g; h]%char []
                  line)))).
Proof.
  unfold scan_line.
  destruct (Re.search Re.date_re line) as [raw_date|] eqn:Ed; [|discriminate].
  destruct (search_date_some _ _ Ed)
    as [(a & b & c & d & e & f & g & h & -> & Hdig) _].
  rewrite (split_date_token _ _ _ _ _ _ _ _ Hdig).
  cbn [index nth_error obind].
  destruct (Re.search Re.time_re line) as [raw_time|] eqn:Et; [|discriminate].
  destruct (search_time_some _ _ Et)
    as [(a' & b' & c' & d' & e' & f' & -> & Hdig') _].
  rewrite (replace_time_token _ _ _ _ _ _ Hdig').
  intros H. inversion H; subst; clear H.
  exists a, b, c, d, e, f, g, h, a', b', c', d', e', f'.
  cbn [text date time temperature_f temperature_c].
  repeat split; try assumption; reflexivity.
Qed.

(** The record of the loop is the record of the first line that holds both
    tokens. *)
Lemma scan_lines_first (lines : list str) (r : info) (text2 : str) :
  scan_lines lines = Ret (Some (Info r, text2)) ->
  exists pre post,
    lines = pre ++ text r :: post /\
    Forall (fun l => ~ (has_date l /\ has_time l)) pre /\
    scan_line (text r) = Ret (Return (Info r) text2).
Proof.
  induction lines as [|l rest IH]; cbn [scan_lines]; intros H.
  - discriminate.
  - destruct (scan_line_cases l)
      as [[E N] | (r' & t2 & E & _ & _ & Hx & _)];
      rewrite E in H; cbn [obind] in H.
    + destruct (IH H) as (pre & post & -> & Hp & Hs).
      exists (l :: pre), post. repeat split; [constructor|]; assumption.
    + inversion H; subst. exists [], rest.
      repeat split; [constructor | exact E].
Qed.

Lemma parse_info_line (banner_text : option str) (r : info) :
  parse_banner_text banner_text = Ret (Info r) ->
  exists t pre post text2,
    banner_text = Some t /\
    PyStr.split newline t = pre ++ text r :: post /\
    Forall (fun l => ~ (has_date l /\ has_time l)) pre /\
    scan_line (text r) = Ret (Return (Info r) text2).
Proof.
  destruct banner_text as [t|]; cbn [parse_banner_text]; [|discriminate].
  destruct (scan_lines (PyStr.split newline t)) as [[[d t2]|]| |] eqn:E;
    cbn [obind]; try discriminate.
  intros H. inversion H; subst.
  destruct (scan_lines_first _ _ _ E) as (pre & post & Hl & Hp & Hs).
  exists t, pre, post, t2. auto.
Qed.

Lemma split_pieces_no_sep (sep : ascii) (s : str) :
  Forall (fun w => ~ In sep w) (PyStr.split sep s).
Proof.
  induction s as [|c s IH]; cbn [PyStr.split].
  - constructor; [intros []|constructor].
  - destruct (Ascii.eqb_spec c sep) as [->|N].
    + constructor; [intros []|exact IH].
    + destruct (PyStr.split sep s) as [|w ws]; inversion IH; subst.
      * constructor; [|constructor]. intros [E|[]]. congruence.
      * constructor; [|assumption]. intros [E|I]; [congruence | auto].
Qed.

Lemma split_without_sep (sep : ascii) (s : str) :
  ~ In sep s -> PyStr.split sep s = [s].
Proof.
  induction s as [|c s IH]; cbn [PyStr.split]; intros N; [reflexivity|].
  destruct (Ascii.eqb_spec c sep) as [->|_].
  - exfalso. apply N. left. reflexivity.
  - rewrite IH; [reflexivity|]. intros I. apply N. right. exact I.
Qed.

(** X1. When the parser returns a record, its date is the leftmost date
    token MM-DD-YYYY of the record's line with the three groups reordered to
    YYYY-MM-DD, every digit kept as it is (no calendar check). *)
Theorem date_is_leftmost_token_reordered
    (banner_text : option str) (r : info) :
  parse_banner_text banner_text = Ret (Info r) ->
  exists (pre suf : str) (a b c d e f g h : ascii),
    text r = pre ++ [a; b; "-"; c; d; "-"; e; f; g; h]%char ++ suf /\
    forallb PyStr.isdigit [a; b; c; d; e; f; g; h] = true /\
    date r = [e; f; g; h; "-"; a; b; "-"; c; d]%char /\
    forall pre' m' suf',
      text r = pre' ++ m' ++ suf' -> is_date_token m' ->
      length pre <= length pre'.
Proof.
  intros H. destruct (parse_info_line _ _ H) as (t & _ & _ & t2 & _ & _ & _ & Hs).
  destruct (scan_line_inv _ _ _ Hs)
    as (a & b & c & d & e & f & g & h & a' & b' & c' & d' & e' & f'
        & Sd & Hd & _ & _ & _ & Ed & _).
  destruct (search_leftmost _ _ _ Sd) as (pre & suf0 & Hl & Hm & Hleft).
  destruct (match_date_inv _ _ Hm) as [_ [suf ->]].
  exists pre, suf, a, b, c, d, e, f, g, h.
  repeat split; try assumption.
  intros pre' m' suf' Hl' Tok.
  destruct (le_lt_dec (length pre) (length pre')) as [L|L]; [exact L|].
  exfalso. pose proof (Hleft pre' (m' ++ suf') Hl' L) as N.
  rewrite (match_date_complete _ suf' Tok) in N. discriminate.
Qed.

(** X2. When the parser returns a record, its time is the leftmost time
    token HH:MM:SS of the record's line with the two colons removed: the
    same six digits in the same order. *)
Theorem time_is_leftmost_token_without_colons
    (banner_text : option str) (r : info) :
  parse_banner_text banner_text = Ret (Info r) ->
  exists (pre suf : str) (a b c d e f : ascii),
    text r = pre ++ [a; b; ":"; c; d; ":"; e; f]%char ++ suf /\
    forallb PyStr.isdigit [a; b; c; d; e; f] = true /\
    time r = [a; b; c; d; e; f] /\
    forall pre' m' suf',
      text r = pre' ++ m' ++ suf' -> is_time_token m' ->
      length pre <= length pre'.
Proof.
  intros H. destruct (parse_info_line _ _ H) as (t & _ & _ & t2 & _ & _ & _ & Hs).
  destruct (scan_line_inv _ _ _ Hs)
    as (a & b & c & d & e & f & g & h & a' & b' & c' & d' & e' & f'
        & _ & _ & St & Ht & _ & _ & Et & _).
  destruct (search_leftmost _ _ _ St) as (pre & suf0 & Hl & Hm & Hleft).
  destruct (match_time_inv _ _ Hm) as [_ [suf ->]].
  exists pre, suf, a', b', c', d', e', f'.
  repeat split; try assumption.
  intros pre' m' suf' Hl' Tok.
  destruct (le_lt_dec (length pre) (length pre')) as [L|L]; [exact L|].
  exfalso. pose proof (Hleft pre' (m' ++ suf') Hl' L) as N.
  rewrite (match_time_complete _ suf' Tok) in N. discriminate.
Qed.

(** X3. The first line with both tokens wins and lines are never merged:
    the record's text is a line of the banner text, every line before it
    lacks the date or the time, and the record is the one the parser gives
    for that line alone. *)
Theorem first_line_with_both_tokens_wins
    (banner_text : option str) (r : info) :
  parse_banner_text banner_text = Ret (Info r) ->
  exists t pre post,
    banner_text = Some t /\
    PyStr.split newline t = pre ++ text r :: post /\
    Forall (fun l => ~ (has_date l /\ has_time l)) pre /\
    parse_banner_text (Some (text r)) = Ret (Info r).
Proof.
  intros H.
  destruct (parse_info_line _ _ H) as (t & pre & post & t2 & -> & Hl & Hp & Hs).
  exists t, pre, post. repeat split; try assumption.
  cbn [parse_banner_text].
  assert (N : ~ In newline (text r)).
  { pose proof (split_pieces_no_sep newline t) as F. rewrite Hl in F.
    apply Forall_app in F. destruct F as [_ F]. inversion F; assumption. }
  rewrite (split_without_sep _ _ N). cbn [scan_lines]. rewrite Hs.
  reflexivity.
Qed.

(** X4. When the parser returns a record, its camera id is present and is
    the first longest token of the remainder: the record's line with the
    leftmost date token, the leftmost time token, the Celsius and the
    Fahrenheit strings removed, runs of spaces collapsed, split on single
    spaces. No token is longer, the tokens before it are shorter, and the
    camera id holds no space. *)
Theorem camera_id_is_first_longest_token
    (banner_text : option str) (r : info) :
  parse_banner_text banner_text = Ret (Info r) ->
  exists raw_date raw_time text2 c pre post,
    Re.search Re.date_re (text r) = Some raw_date /\
    Re.search Re.time_re (text r) = Some raw_time /\
    text2 =
    collapse_spaces
      (remove_if_set (temperature_f r)
         (remove_if_set (temperature_c r)
            (PyStr.replace raw_time []
               (PyStr.replace raw_date [] (text r))))) /\
    cam_id r = Some c /\
    PyStr.split " " text2 = pre ++ c :: post /\
    Forall (fun u => length u < length c) pre /\
    Forall (fun u => length u <= length c) post /\
    ~ In " "%char c.
Proof.
  intros H. destruct (parse_info_line _ _ H) as (t & _ & _ & t2 & _ & _ & _ & Hs).
  destruct (scan_line_inv _ _ _ Hs)
    as (a & b & c & d & e & f & g & h & a' & b' & c' & d' & e' & f'
        & Sd & _ & St & _ & _ & _ & _ & _ & _ & E2).
  destruct (cam_id_first_longest _ _ _ Hs) as (tok & pre & post & Hc & Hsp & Hp & Hq).
  exists [a; b; "-"; c; d; "-"; e; f; g; h]%char,
         [a'; b'; ":"; c'; d'; ":"; e'; f']%char, t2, tok, pre, post.
  repeat split; try assumption.
  pose proof (split_pieces_no_sep " " t2) as F. rewrite Hsp in F.
  apply Forall_app in F. destruct F as [_ F]. inversion F; assumption.
Qed.

(* ------------------------------------------------------------------ *)
(** ** Temperatures *)

(** How [a+] goes on after an accepted character: more of [a+], or else
    the rest of the pattern. *)
Lemma plus_unfold (a : Re.atom) (re' : Re.regex) (c : ascii) (s : str) :
  Re.match_here (Re.Plus a :: re') (c :: s) =
  if Re.accepts a c
  then match
         match Re.match_here (Re.Plus a :: re') s with
         | Some m => Some m
         | None => Re.match_here re' s
         end
       with
       | Some m => Some (c :: m)
       | None => None
       end
  else None.
Proof.
  cbn [Re.match_here]. destruct (Re.accepts a c); [|reflexivity].
  destruct s as [|c1 s]; [reflexivity|].
  destruct (Re.accepts a c1); [|reflexivity].
  match goal with
  | |- context [?F s] => is_fix F; destruct (F s)
  end; reflexivity.
Qed.

Lemma literal_unfold (x : ascii) (re' : Re.regex) (c : ascii) (s : str) :
  Re.match_here (Re.Times 1 (Re.Chr x) :: re') (c :: s) =
  if Ascii.eqb x c
  then match Re.match_here re' s with
       | Some m => Some (c :: m)
       | None => None
       end
  else None.
Proof.
  cbn [Re.match_here Re.take_n Re.accepts].
  destruct (Ascii.eqb x c); reflexivity.
Qed.

Section Temperature.

(** The unit letter of the pattern, [F] or [C]. *)
Variable unit_letter : ascii.
Hypothesis unit_not_space : PyStr.isspace unit_letter = false.

Local Abbreviation tail_re :=
  [Re.Times 1 (Re.Chr unit_letter); Re.Times 1 (Re.Chr " ")].
Local Abbreviation temp_re :=
  (Re.Times 1 (Re.Chr " ") :: Re.Plus Re.Digit :: tail_re).

Lemma match_tail_inv (s m : str) :
  Re.match_here tail_re s = Some m ->
  m = [unit_letter; " "%char] /\ exists suf, s = m ++ suf.
Proof.
  cbn [Re.match_here Re.take_n Re.accepts]. intros H.
  destruct s as [|x s]; [discriminate|].
  destruct (Ascii.eqb_spec unit_letter x) as [<-|]; [|discriminate].
  destruct s as [|y s]; [discriminate|].
  destruct (Ascii.eqb_spec " " y) as [<-|]; [|discriminate].
  inversion H; subst. split; [reflexivity|]. exists s. reflexivity.
Qed.

Lemma match_tail_complete (suf : str) :
  Re.match_here tail_re (unit_letter :: " "%char :: suf) =
  Some [unit_letter; " "%char].
Proof.
  cbn [Re.match_here Re.take_n Re.accepts].
  rewrite !Ascii.eqb_refl. reflexivity.
Qed.

Lemma match_digits_inv (s m : str) :
  Re.match_here (Re.Plus Re.Digit :: tail_re) s = Some m ->
  exists ds suf,
    ds <> [] /\ Forall (fun c => PyStr.isdigit c = true) ds /\
    m = ds ++ [unit_letter; " "%char] /\ s = m ++ suf.
Proof.
  revert m; induction s as [|c s IH]; intros m H; [discriminate|].
  rewrite plus_unfold in H. cbn [Re.accepts] in H.
  destruct (PyStr.isdigit c) eqn:Dc; [|discriminate].
  destruct (Re.match_here (Re.Plus Re.Digit :: tail_re) s) as [m1|] eqn:E1.
  - inversion H; subst.
    destruct (IH m1 eq_refl) as (ds & suf & Hn & Hd & -> & ->).
    exists (c :: ds), suf.
    split; [discriminate|]. split; [constructor; assumption|].
    split; [reflexivity|]. cbn [app]. rewrite <- !app_assoc. reflexivity.
  - destruct (Re.match_here tail_re s) as [m2|] eqn:E2; [|discriminate].
    inversion H; subst.
    destruct (match_tail_inv _ _ E2) as [-> [suf ->]].
    exists [c], suf.
    split; [discriminate|]. split; [constructor; [assumption|constructor]|].
    split; reflexivity.
Qed.

Lemma match_digits_complete (ds suf : str) :
  ds <> [] -> Forall (fun c => PyStr.isdigit c = true) ds ->
  exists m,
    Re.match_here (Re.Plus Re.Digit :: tail_re)
      (ds ++ unit_letter :: " "%char :: suf) = Some m.
Proof.
  induction ds as [|c ds IH]; intros N F; [congruence|].
  inversion F; subst. cbn [app]. rewrite plus_unfold. cbn [Re.accepts].
  match goal with E : PyStr.isdigit c = true |- _ => rewrite E end.
  destruct ds as [|c' ds].
  - cbn [app].
    destruct (Re.match_here (Re.Plus Re.Digit :: tail_re)
                (unit_letter :: " "%char :: suf)); [eauto|].
    rewrite match_tail_complete. eauto.
  - destruct IH as [m E]; [discriminate | assumption |].
    rewrite E. eauto.
Qed.

Lemma match_temp_inv (s m : str) :
  Re.match_here temp_re s = Some m ->
  exists ds suf,
    ds <> [] /\ Forall (fun c => PyStr.isdigit c = true) ds /\
    m = " "%char :: ds ++ [unit_letter; " "%char] /\ s = m ++ suf.
Proof.
  intros H.
  destruct s as [|x s]; [discriminate|].
  rewrite literal_unfold in H.
  destruct (Ascii.eqb_spec " " x) as [<-|]; [|discriminate].
  destruct (Re.match_here (Re.Plus Re.Digit :: tail_re) s) as [m'|] eqn:E;
    [|discriminate].
  inversion H; subst.
  destruct (match_digits_inv _ _ E) as (ds & suf & Hn & Hd & -> & ->).
  exists ds, suf. split; [assumption|]. split; [assumption|].
  split; reflexivity.
Qed.

Lemma match_temp_complete (ds suf : str) :
  ds <> [] -> Forall (fun c => PyStr.isdigit c = true) ds ->
  exists m,
    Re.match_here temp_re
      (" "%char :: ds ++ unit_letter :: " "%char :: suf) = Some m.
Proof.
  intros N F. destruct (match_digits_complete ds suf N F) as [m E].
  exists (" "%char :: m).
  rewrite literal_unfold, Ascii.eqb_refl, E. reflexivity.
Qed.

Lemma digit_not_space (c : ascii) :
  PyStr.isdigit c = true -> PyStr.isspace c = false.
Proof.
  unfold PyStr.isdigit, PyStr.isspace. intros H.
  apply andb_true_iff in H. destruct H as [H1 H2].
  apply Nat.leb_le in H1. apply Nat.leb_le in H2.
  repeat rewrite orb_false_iff. repeat split.
  - apply andb_false_iff. right. apply Nat.leb_gt. lia.
  - apply andb_false_iff. right. apply Nat.leb_gt. lia.
  - apply Nat.eqb_neq. lia.
  - apply Nat.eqb_neq. lia.
Qed.

(** [raw.strip()] of a match keeps the digits and the unit letter. *)
Lemma strip_temp (ds : str) :
  ds <> [] -> Forall (fun c => PyStr.isdigit c = true) ds ->
  PyStr.strip (" "%char :: ds ++ [unit_letter; " "%char]) =
  ds ++ [unit_letter].
Proof.
  intros N F. destruct ds as [|d ds]; [congruence|]. inversion F; subst.
  unfold PyStr.strip.
  change (PyStr.lstrip (" "%char :: (d :: ds) ++ [unit_letter; " "%char]))
    with (PyStr.lstrip (d :: ds ++ [unit_letter; " "%char])).
  cbn [PyStr.lstrip]. rewrite (digit_not_space d) by assumption.
  assert (R : rev (d :: ds ++ [unit_letter; " "%char]) =
              " "%char :: unit_letter :: rev (d :: ds)).
  { change (d :: ds ++ [unit_letter; " "%char])
      with ((d :: ds) ++ [unit_letter; " "%char]).
    rewrite rev_app_distr. reflexivity. }
  rewrite R.
  change (PyStr.lstrip (" "%char :: unit_letter :: rev (d :: ds)))
    with (PyStr.lstrip (unit_letter :: rev (d :: ds))).
  cbn [PyStr.lstrip]. rewrite unit_not_space.
  change (rev (unit_letter :: rev (d :: ds)))
    with (rev (rev (d :: ds)) ++ [unit_letter]).
  rewrite rev_involutive. reflexivity.
Qed.

(** What the temperature search and [strip] give on a line. *)
Lemma temperature_of_line (line t : str) :
  option_map PyStr.strip (Re.search temp_re line) = Some t ->
  exists ds pre suf,
    ds <> [] /\ Forall (fun c => PyStr.isdigit c = true) ds /\
    t = ds ++ [unit_letter] /\
    line = pre ++ " "%char :: t ++ " "%char :: suf.
Proof.
  destruct (Re.search temp_re line) as [m|] eqn:E; [|discriminate].
  cbn [option_map]. intros H. inversion H; subst; clear H.
  destruct (search_some _ _ _ E) as (pre & suf0 & -> & Hm).
  destruct (match_temp_inv _ _ Hm) as (ds & suf & Hn & Hd & -> & ->).
  exists ds, pre, suf. rewrite (strip_temp ds Hn Hd).
  repeat split; try assumption.
  cbn [app]. rewrite <- !app_assoc. reflexivity.
Qed.

Lemma no_temperature_on_line (line : str) :
  option_map PyStr.strip (Re.search temp_re line) = None ->
  forall ds pre suf,
    ds <> [] -> Forall (fun c => PyStr.isdigit c = true) ds ->
    line <> pre ++ " "%char :: ds ++ unit_letter :: " "%char :: suf.
Proof.
  destruct (Re.search temp_re line) as [m|] eqn:E; [discriminate|].
  intros _ ds pre suf N F ->.
  apply search_none in E.
  destruct (match_temp_complete ds suf N F) as [m E']. congruence.
Qed.

End Temperature.

(** X5. When the parser returns a record, a temperature it holds is one or
    more digits followed by the unit letter ([F], [C]) and stands in the
    record's line between two spaces; and a temperature is absent only when
    the line holds no such text: digits and unit letter that touch the start
    or the end of the line, or lack a space on either side, are not read. *)
Theorem temperatures_are_spaced_digits_and_unit
    (banner_text : option str) (r : info) :
  parse_banner_text banner_text = Ret (Info r) ->
  (forall t, temperature_f r = Some t ->
     exists ds pre suf,
       ds <> [] /\ Forall (fun c => PyStr.isdigit c = true) ds /\
       t = ds ++ ["F"%char] /\
       text r = pre ++ " "%char :: t ++ " "%char :: suf) /\
  (forall t, temperature_c r = Some t ->
     exists ds pre suf,
       ds <> [] /\ Forall (fun c => PyStr.isdigit c = true) ds /\
       t = ds ++ ["C"%char] /\
       text r = pre ++ " "%char :: t ++ " "%char :: suf) /\
  (temperature_f r = None ->
   forall ds pre suf,
     ds <> [] -> Forall (fun c => PyStr.isdigit c = true) ds ->
     text r <> pre ++ " "%char :: ds ++ "F"%char :: " "%char :: suf) /\
  (temperature_c r = None ->
   forall ds pre suf,
     ds <> [] -> Forall (fun c => PyStr.isdigit c = true) ds ->
     text r <> pre ++ " "%char :: ds ++ "C"%char :: " "%char :: suf).
Proof.
  intros H. destruct (parse_info_line _ _ H) as (t & _ & _ & t2 & _ & _ & _ & Hs).
  destruct (scan_line_inv _ _ _ Hs)
    as (a & b & c & d & e & f & g & h & a' & b' & c' & d' & e' & f'
        & _ & _ & _ & _ & Hx & _ & _ & Tf & Tc & _).
  rewrite Tf, Tc.
  split; [|split; [|split]].
  - intros tf. apply (temperature_of_line "F" eq_refl).
  - intros tc. apply (temperature_of_line "C" eq_refl).
  - apply (no_temperature_on_line "F").
  - apply (no_temperature_on_line "C").
Qed.

(* ------------------------------------------------------------------ *)
(** ** The parser properties on a noisy text *)

Lemma parse_noisy_text :
  parse_banner_text (Some Sample.noisy_text) = Ret (Info Sample.banner_info).
Proof. vm_compute. reflexivity. Qed.

(** X1 on the noisy text. *)
Lemma date_is_leftmost_token_reordered_example :
  parse_banner_text (Some Sample.noisy_text) = Ret (Info Sample.banner_info) /\
  exists (pre suf : str) (a b c d e f g h : ascii),
    text Sample.banner_info =
    pre ++ [a; b; "-"; c; d; "-"; e; f; g; h]%char ++ suf /\
    forallb PyStr.isdigit [a; b; c; d; e; f; g; h] = true /\
    date Sample.banner_info = [e; f; g; h; "-"; a; b; "-"; c; d]%char /\
    forall pre' m' suf',
      text Sample.banner_info = pre' ++ m' ++ suf' -> is_date_token m' ->
      length pre <= length pre'.
Proof.
  split; [exact parse_noisy_text|].
  exact (date_is_leftmost_token_reordered (Some Sample.noisy_text)
           Sample.banner_info parse_noisy_text).
Defined.

(** X2 on the noisy text. *)
Lemma time_is_leftmost_token_without_colons_example :
  parse_banner_text (Some Sample.noisy_text) = Ret (Info Sample.banner_info) /\
  exists (pre suf : str) (a b c d e f : ascii),
    text Sample.banner_info = pre ++ [a; b; ":"; c; d; ":"; e; f]%char ++ suf /\
    forallb PyStr.isdigit [a; b; c; d; e; f] = true /\
    time Sample.banner_info = [a; b; c; d; e; f] /\
    forall pre' m' suf',
      text Sample.banner_info = pre' ++ m' ++ suf' -> is_time_token m' ->
      length pre <= length pre'.
Proof.
  split; [exact parse_noisy_text|].
  exact (time_is_leftmost_token_without_colons (Some Sample.noisy_text)
           Sample.banner_info parse_noisy_text).
Defined.

(** X3 on the noisy text. *)
Lemma first_line_with_both_tokens_wins_example :
  parse_banner_text (Some Sample.noisy_text) = Ret (Info Sample.banner_info) /\
  exists t pre post,
    Some Sample.noisy_text = Some t /\
    PyStr.split newline t = pre ++ text Sample.banner_info :: post /\
    Forall (fun l => ~ (has_date l /\ has_time l)) pre /\
    parse_banner_text (Some (text Sample.banner_info)) =
    Ret (Info Sample.banner_info).
Proof.
  split; [exact parse_noisy_text|].
  exact (first_line_with_both_tokens_wins (Some Sample.noisy_text)
           Sample.banner_info parse_noisy_text).
Defined.

(** X4 on the noisy text. *)
Lemma camera_id_is_first_longest_token_example :
  parse_banner_text (Some Sample.noisy_text) = Ret (Info Sample.banner_info) /\
  exists raw_date raw_time text2 c pre post,
    Re.search Re.date_re (text Sample.banner_info) = Some raw_date /\
    Re.search Re.time_re (text Sample.banner_info) = Some raw_time /\
    text2 =
    collapse_spaces
      (remove_if_set (temperature_f Sample.banner_info)
         (remove_if_set (temperature_c Sample.banner_info)
            (PyStr.replace raw_time []
               (PyStr.replace raw_date [] (text Sample.banner_info))))) /\
    cam_id Sample.banner_info = Some c /\
    PyStr.split " " text2 = pre ++ c :: post /\
    Forall (fun u => length u < length c) pre /\
    Forall (fun u => length u <= length c) post /\
    ~ In " "%char c.
Proof.
  split; [exact parse_noisy_text|].
  exact (camera_id_is_first_longest_token (Some Sample.noisy_text)
           Sample.banner_info parse_noisy_text).
Defined.

(** X5 on the noisy text: both temperatures are read. *)
Lemma temperatures_are_spaced_digits_and_unit_example :
  parse_banner_text (Some Sample.noisy_text) = Ret (Info Sample.banner_info) /\
  (exists ds pre suf,
      ds <> [] /\ Forall (fun c => PyStr.isdigit c = true) ds /\
      lit "73F" = ds ++ ["F"%char] /\
      text Sample.banner_info = pre ++ " "%char :: lit "73F" ++ " "%char :: suf) /\
  (exists ds pre suf,
      ds <> [] /\ Forall (fun c => PyStr.isdigit c = true) ds /\
      lit "23C" = ds ++ ["C"%char] /\
      text Sample.banner_info = pre ++ " "%char :: lit "23C" ++ " "%char :: suf).
Proof.
  split; [exact parse_noisy_text|].
  destruct (temperatures_are_spaced_digits_and_unit (Some Sample.noisy_text)
              Sample.banner_info parse_noisy_text) as (Hf & Hc & _).
  split; [exact (Hf _ eq_refl) | exact (Hc _ eq_refl)].
Defined.

(* ================================================================== *)
(** * Further properties of the space-collapse loop *)

Section Squeeze.

Local Abbreviation dd := ([" "; " "]%char : str).
Local Abbreviation sp := ([" "]%char : str).
Local Abbreviation once s := (PyStr.replace_from dd sp s 0).

Lemma once_cons (c : ascii) (t : str) :
  once (c :: t) =
  if PyStr.startswith dd (c :: t)
  then " "%char :: PyStr.replace_from dd sp t 1
  else c :: once t.
Proof. reflexivity. Qed.

Lemma startswith_double (c : ascii) (t : str) :
  PyStr.startswith dd (c :: t) = Ascii.eqb " " c && PyStr.startswith sp t.
Proof. reflexivity. Qed.

Lemma startswith_double_inv (c : ascii) (t : str) :
  PyStr.startswith dd (c :: t) = true ->
  c = " "%char /\ exists t', t = " "%char :: t'.
Proof.
  rewrite startswith_double. intros H. apply andb_true_iff in H.
  destruct H as [H1 H2]. apply Ascii.eqb_eq in H1. split; [auto|].
  destruct t as [|x t']; [discriminate|]. cbn [PyStr.startswith] in H2.
  apply andb_true_iff in H2. destruct H2 as [H2 _].
  apply Ascii.eqb_eq in H2. subst. eauto.
Qed.

Lemma once_head (t : str) :
  PyStr.startswith sp (once t) = PyStr.startswith sp t.
Proof.
  destruct t as [|x t]; [reflexivity|]. rewrite once_cons.
  destruct (PyStr.startswith dd (x :: t)) eqn:E.
  - destruct (startswith_double_inv _ _ E) as [-> _]. reflexivity.
  - reflexivity.
Qed.

Lemma squeeze_cons (c : ascii) (t : str) :
  squeeze (c :: t) =
  if PyStr.startswith dd (c :: t) then squeeze t else c :: squeeze t.
Proof. reflexivity. Qed.

Lemma squeeze_once_bounded (n : nat) (s : str) :
  length s <= n -> squeeze (once s) = squeeze s.
Proof.
  revert s; induction n as [|n IH]; intros s L.
  - destruct s; [reflexivity | cbn in L; lia].
  - destruct s as [|c t]; [reflexivity|]. cbn [length] in L.
    rewrite once_cons. destruct (PyStr.startswith dd (c :: t)) eqn:E.
    + destruct (startswith_double_inv _ _ E) as [-> [t' ->]].
      change (PyStr.replace_from dd sp (" "%char :: t') 1) with (once t').
      rewrite (squeeze_cons " " (" "%char :: t')), E.
      rewrite !squeeze_cons. rewrite !startswith_double, once_head.
      rewrite IH by (cbn [length] in L; lia). reflexivity.
    + rewrite !squeeze_cons, E.
      rewrite startswith_double, once_head, <- startswith_double, E.
      rewrite IH by lia. reflexivity.
Qed.

Lemma squeeze_fixed (s : str) :
  PyStr.contains dd s = false -> squeeze s = s.
Proof.
  induction s as [|c t IH]; intros H; [reflexivity|].
  cbn [PyStr.contains] in H. apply orb_false_iff in H. destruct H as [H1 H2].
  rewrite squeeze_cons, H1, IH by exact H2. reflexivity.
Qed.

Lemma collapse_is_squeeze_bounded (n : nat) (s : str) :
  length s <= n -> collapse_spaces s = squeeze s.
Proof.
  revert s; induction n as [|n IH]; intros s L;
    rewrite collapse_spaces_unfold;
    change (lit "  ") with dd; change (lit " ") with sp;
    destruct (PyStr.contains dd s) eqn:E;
    try (symmetry; apply squeeze_fixed; exact E).
  - destruct s; [discriminate | cbn in L; lia].
  - pose proof (replace_double_shorter s E) as Sh.
    rewrite IH by lia.
    apply (squeeze_once_bounded (length s)). lia.
Qed.

End Squeeze.

(** X7. The [while] loop of camera-id recovery makes every run of spaces
    one space and changes nothing else: on every string it returns what the
    one-pass [squeeze] returns. *)
Theorem collapse_spaces_squeezes_runs (s : str) :
  collapse_spaces s = squeeze s.
Proof. apply (collapse_is_squeeze_bounded (length s)). lia. Qed.

(* ================================================================== *)
(** * Further properties of the file loop *)

Lemma process_file_ignores_cam_id
    (image_to_string : Cv.gray -> option str) (cam1 cam2 : str)
    (rename debug : bool) (file_path : path) (w : world) :
  process_file image_to_string
    {| arg_cam_id := cam1; arg_rename := rename; arg_debug := debug |}
    file_path w =
  process_file image_to_string
    {| arg_cam_id := cam2; arg_rename := rename; arg_debug := debug |}
    file_path w.
Proof.
  unfold process_file, bind. cbn [arg_cam_id arg_rename arg_debug].
  rewrite (debug_print_returns debug (Dbg "file_path" _) w).
  destruct (extract_date_time image_to_string file_path debug _)
    as [[[r|msg]| |] w1] eqn:E; try reflexivity.
  destruct (extract_date_time_info _ _ _ _ _ _ E) as (_ & _ & c & Hc).
  rewrite Hc. reflexivity.
Qed.

(** X6. The [--cam-id] option has no effect on a run: a record's camera id
    is never [None], so neither the option's value nor "CAM-ID" is ever put
    in a name. Two runs that differ in [--cam-id] only print the same lines,
    end alike and leave the same files. *)
Theorem cam_id_option_has_no_effect
    (image_to_string : Cv.gray -> option str) (cam1 cam2 : str)
    (rename debug : bool) (files : list path) (w : world) :
  main_loop image_to_string
    {| arg_cam_id := cam1; arg_rename := rename; arg_debug := debug |}
    files w =
  main_loop image_to_string
    {| arg_cam_id := cam2; arg_rename := rename; arg_debug := debug |}
    files w.
Proof.
  revert w; induction files as [|file_path rest IH]; intros w;
    cbn [main_loop]; [reflexivity|].
  unfold bind. rewrite (process_file_ignores_cam_id _ cam1 cam2).
  destruct (process_file image_to_string _ file_path w) as [[[]| |] w1];
    [apply IH | reflexivity | reflexivity].
Qed.

(* ------------------------------------------------------------------ *)
(** ** What a run writes *)

Lemma video_is_not_still (path_file : path) :
  is_video path_file = true -> is_still path_file = false.
Proof.
  intros H. destruct (is_still path_file) eqn:E; [|reflexivity].
  rewrite (still_is_not_video _ E) in H. discriminate.
Qed.

Section Writes.

Variable image_to_string : Cv.gray -> option str.

Lemma video_loop_keeps_files stream frame_count frame_interval fraction debug :
  keeps_files
    (video_loop image_to_string stream frame_count frame_interval
                fraction debug).
Proof.
  revert frame_count; induction stream as [|frame rest IH];
    intros frame_count; cbn [video_loop]; [apply keeps_files_ret|].
  apply keeps_files_bind; [apply keeps_files_lift | intros r].
  destruct (r =? 0)%Z; [|apply IH].
  apply keeps_files_bind;
    [apply banner_text_from_frame_keeps_files | intros t; apply keeps_files_ret].
Qed.

Lemma video_text_keeps_files video_path frame_interval fraction debug :
  keeps_files
    (extract_banner_text_from_video image_to_string video_path
       frame_interval fraction debug).
Proof.
  unfold extract_banner_text_from_video.
  apply keeps_files_bind; [intros w; reflexivity | intros stream].
  apply video_loop_keeps_files.
Qed.

(** [banner_text_from_frame] with a path changes the crop target at most. *)
Lemma frame_text_touches_target frame fraction debug file_path w q :
  PyPath.with_suffix file_path (lit ".jpeg") <> Ret q ->
  files (snd (banner_text_from_frame image_to_string frame fraction debug
                (Some file_path) w)) q = files w q.
Proof.
  intros N. unfold banner_text_from_frame. unfold bind at 1.
  pose proof (region_of_interest_keeps_files frame fraction debug w) as K.
  destruct (region_of_interest frame fraction debug w) as [[roi| |] w1];
    cbn [snd] in *; try (rewrite K; reflexivity).
  rewrite bind_keeps_snd by (intros _; repeat keeps_step).
  unfold bind, lift.
  destruct (PyPath.with_suffix file_path (lit ".jpeg")) as [target| |];
    cbn [snd]; try (rewrite K; reflexivity).
  unfold imwrite.
  destruct (Cv.is_empty roi); cbn [snd]; [rewrite K; reflexivity|].
  destruct (Cv.fits_jpeg roi); cbn [snd negb]; [|rewrite K; reflexivity].
  destruct (os_accepts w1 target); cbn [snd files];
    [|rewrite K; reflexivity].
  unfold set_file.
  destruct (path_eq_dec q target) as [->|]; [congruence|].
  rewrite K. reflexivity.
Qed.

Lemma banner_text_touches_target path_file debug w q :
  PyPath.with_suffix path_file (lit ".jpeg") <> Ret q ->
  files (snd (banner_text_of image_to_string path_file debug w)) q =
  files w q.
Proof.
  intros N. unfold banner_text_of.
  destruct (is_still path_file) eqn:Hs.
  - rewrite (still_is_not_video _ Hs). unfold bind at 1. cbn [ret].
    rewrite bind_keeps_snd by (intros ?; apply keeps_files_ret).
    unfold extract_banner_text_from_image, bind, imread.
    destruct (files w path_file) as [[frame|frames|]|]; try reflexivity.
    apply frame_text_touches_target. exact N.
  - rewrite bind_keeps_snd by (intros ?; apply keeps_files_ret).
    destruct (is_video path_file); [|reflexivity].
    rewrite video_text_keeps_files. reflexivity.
Qed.

Lemma extract_date_time_touches_target path_file debug w q :
  PyPath.with_suffix path_file (lit ".jpeg") <> Ret q ->
  files (snd (extract_date_time image_to_string path_file debug w)) q =
  files w q.
Proof.
  intros N. unfold extract_date_time.
  rewrite bind_keeps_snd by (intros ?; repeat keeps_step).
  apply banner_text_touches_target. exact N.
Qed.

Lemma extract_date_time_keeps_video_files path_file debug w :
  is_video path_file = true ->
  files (snd (extract_date_time image_to_string path_file debug w)) = files w.
Proof.
  intros Hv. unfold extract_date_time.
  rewrite bind_keeps_snd by (intros ?; repeat keeps_step).
  unfold banner_text_of. rewrite Hv, (video_is_not_still _ Hv).
  rewrite bind_keeps_snd by (intros ?; apply keeps_files_ret).
  apply video_text_keeps_files.
Qed.

Lemma dry_run_files args file_path w :
  arg_rename args = false ->
  files (snd (process_file image_to_string args file_path w)) =
  files (snd (extract_date_time image_to_string file_path (arg_debug args)
                (snd (debug_print (arg_debug args)
                        (Dbg "file_path" [VPath file_path]) w)))).
Proof.
  intros R. unfold process_file. unfold bind at 1.
  rewrite debug_print_returns.
  rewrite bind_keeps_snd; [reflexivity|].
  intros d. rewrite R. repeat keeps_step.
Qed.

End Writes.

(** X8. Extracting the banner of a video writes no file and changes none,
    whatever the flags; so a dry run on a video leaves all files as they
    were (the crop is written for still images only). *)
Theorem video_processing_writes_nothing
    (image_to_string : Cv.gray -> option str) (args : arguments)
    (file_path : path) (w : world) :
  is_video file_path = true ->
  files (snd (extract_date_time image_to_string file_path (arg_debug args) w))
  = files w /\
  (arg_rename args = false ->
   files (snd (process_file image_to_string args file_path w)) = files w).
Proof.
  intros Hv. split.
  - apply extract_date_time_keeps_video_files. exact Hv.
  - intros R. rewrite (dry_run_files image_to_string _ _ _ R).
    rewrite (extract_date_time_keeps_video_files image_to_string _ _ _ Hv).
    apply keeps_files_debug_print.
Qed.

(** X9. A dry run (no [--rename]) changes no file but the crop target: for
    every processed path, every file other than the path with its suffix
    replaced by ".jpeg" holds after the run what it held before, whatever
    the recognizer does. *)
Theorem dry_run_touches_only_crop_target
    (image_to_string : Cv.gray -> option str) (args : arguments)
    (file_path q : path) (w : world) :
  arg_rename args = false ->
  PyPath.with_suffix file_path (lit ".jpeg") <> Ret q ->
  files (snd (process_file image_to_string args file_path w)) q = files w q.
Proof.
  intros R N. rewrite (dry_run_files image_to_string _ _ _ R).
  rewrite (extract_date_time_touches_target image_to_string _ _ _ _ N).
  rewrite keeps_files_debug_print. reflexivity.
Qed.

(** X13. A video of which no frame decodes is reported as a file without
    banner: [extract_date_time] returns [{"error": ""}], prints nothing and
    changes nothing, with or without [--debug]. *)
Theorem video_without_frames_has_no_banner
    (image_to_string : Cv.gray -> option str) (path_file : path)
    (debug : bool) (w : world) :
  is_video path_file = true ->
  fst (video_frames path_file w) = Ret [] ->
  extract_date_time image_to_string path_file debug w = (Ret (Error []), w).
Proof.
  intros Hv Hf.
  assert (E : video_frames path_file w = (Ret [], w)).
  { unfold video_frames in *. cbn [fst] in Hf. rewrite Hf. reflexivity. }
  unfold extract_date_time, banner_text_of.
  rewrite Hv, (video_is_not_still _ Hv).
  unfold extract_banner_text_from_video.
  unfold bind at 1. unfold bind at 1. unfold bind at 1. rewrite E.
  reflexivity.
Qed.

(* ------------------------------------------------------------------ *)
(** ** Where the crop goes *)

Lemma rfind_app (c : ascii) (a b : str) :
  PyPath.rfind c (a ++ b) =
  match PyPath.rfind c b with
  | Some i => Some (length a + i)
  | None => PyPath.rfind c a
  end.
Proof.
  induction a as [|x a IH]; cbn [app PyPath.rfind length].
  - destruct (PyPath.rfind c b); reflexivity.
  - rewrite IH. destruct (PyPath.rfind c b); reflexivity.
Qed.

Lemma suffix_of_stem_jpeg (dir stem : str) :
  stem <> [] ->
  PyPath.suffix {| parent := dir; name := stem ++ lit ".jpeg" |} = lit ".jpeg".
Proof.
  intros N. unfold PyPath.suffix. cbn [name].
  assert (R : PyPath.rfind "." (stem ++ lit ".jpeg") = Some (length stem)).
  { rewrite rfind_app.
    change (PyPath.rfind "." (lit ".jpeg")) with (Some 0).
    cbv iota. rewrite Nat.add_0_r. reflexivity. }
  rewrite R, length_app.
  change (length (lit ".jpeg")) with 5.
  destruct stem as [|x stem]; [congruence|]. cbn [length].
  replace ((0 <? S (length stem)) && (S (length stem) <? S (length stem) + 5 - 1))
    with true.
  - change (S (length stem)) with (length (x :: stem)).
    rewrite skipn_app, skipn_all, Nat.sub_diag. reflexivity.
  - symmetry. apply andb_true_iff. split; apply Nat.ltb_lt; lia.
Qed.

(** The name splits into a stem and the suffix. *)
Lemma name_stem_suffix (p : path) :
  name p =
  firstn (length (name p) - length (PyPath.suffix p)) (name p)
  ++ PyPath.suffix p.
Proof.
  unfold PyPath.suffix.
  destruct (PyPath.rfind "." (name p)) as [i|];
    [|cbn [length]; rewrite Nat.sub_0_r, firstn_all, app_nil_r; reflexivity].
  destruct ((0 <? i) && (i <? length (name p) - 1)) eqn:B;
    [|cbn [length]; rewrite Nat.sub_0_r, firstn_all, app_nil_r; reflexivity].
  apply andb_true_iff in B. destruct B as [_ B]. apply Nat.ltb_lt in B.
  rewrite length_skipn.
  replace (length (name p) - (length (name p) - i)) with i by lia.
  rewrite firstn_skipn. reflexivity.
Qed.

Lemma stem_not_empty (p : path) :
  name p <> [] ->
  firstn (length (name p) - length (PyPath.suffix p)) (name p) <> [].
Proof.
  intros N E. apply (f_equal (@length ascii)) in E.
  rewrite length_firstn in E. cbn [length] in E.
  unfold PyPath.suffix in E.
  destruct (PyPath.rfind "." (name p)) as [i|].
  - destruct ((0 <? i) && (i <? length (name p) - 1)) eqn:B.
    + apply andb_true_iff in B. destruct B as [B1 B2].
      apply Nat.ltb_lt in B1. apply Nat.ltb_lt in B2.
      rewrite length_skipn in E. lia.
    + cbn [length] in E. destruct (name p); [congruence | cbn in E; lia].
  - cbn [length] in E. destruct (name p); [congruence | cbn in E; lia].
Qed.

(** X10. The crop of a still image goes to a sibling whose name is the
    stem of the image's name followed by ".jpeg": it lies in the same
    directory, is itself a still-image path for the program (a later run
    would take the crop as an input), and is the image's own path exactly
    when the image's suffix is ".jpeg"; images that differ in their suffix
    only share one crop file. *)
Theorem crop_target_is_a_jpeg_sibling (file_path target : path) :
  PyPath.with_suffix file_path (lit ".jpeg") = Ret target ->
  exists stem,
    stem <> [] /\
    name file_path = stem ++ PyPath.suffix file_path /\
    name target = stem ++ lit ".jpeg" /\
    parent target = parent file_path /\
    is_still target = true /\
    (target = file_path <-> PyPath.suffix file_path = lit ".jpeg").
Proof.
  intros H.
  exists (firstn (length (name file_path) - length (PyPath.suffix file_path))
                 (name file_path)).
  assert (N : name file_path <> []).
  { intros E. unfold PyPath.with_suffix in H. rewrite E in H. discriminate. }
  pose proof (stem_not_empty file_path N) as Hstem.
  pose proof (name_stem_suffix file_path) as Hname.
  assert (T : target =
              {| parent := parent file_path;
                 name := firstn (length (name file_path)
                                 - length (PyPath.suffix file_path))
                                (name file_path) ++ lit ".jpeg" |}).
  { unfold PyPath.with_suffix in H.
    destruct (name file_path) as [|x nm] eqn:En; [congruence|].
    destruct (PyPath.suffix file_path) as [|y sfx] eqn:Es; cbn [truthy] in H.
    - inversion H; subst. change (length (@nil ascii)) with 0.
      rewrite Nat.sub_0_r, firstn_all. reflexivity.
    - inversion H; subst. reflexivity. }
  assert (S : PyPath.suffix target = lit ".jpeg").
  { rewrite T. apply suffix_of_stem_jpeg. exact Hstem. }
  split; [exact Hstem|]. split; [exact Hname|].
  split; [rewrite T; reflexivity|]. split; [rewrite T; reflexivity|].
  split.
  - unfold is_still. rewrite S. reflexivity.
  - split.
    + intros <-. exact S.
    + intros E. rewrite (with_suffix_same _ E) in H. congruence.
Qed.

(** X10 on "IMG_0001.JPG": the crop goes to "IMG_0001.jpeg". *)
Lemma crop_target_is_a_jpeg_sibling_example :
  PyPath.with_suffix Example.photo (lit ".jpeg") =
  Ret (Example.in_pics "IMG_0001.jpeg") /\
  exists stem,
    stem <> [] /\
    name Example.photo = stem ++ PyPath.suffix Example.photo /\
    name (Example.in_pics "IMG_0001.jpeg") = stem ++ lit ".jpeg" /\
    parent (Example.in_pics "IMG_0001.jpeg") = parent Example.photo /\
    is_still (Example.in_pics "IMG_0001.jpeg") = true /\
    (Example.in_pics "IMG_0001.jpeg" = Example.photo <->
     PyPath.suffix Example.photo = lit ".jpeg").
Proof.
  split; [reflexivity|].
  exact (crop_target_is_a_jpeg_sibling Example.photo
           (Example.in_pics "IMG_0001.jpeg") eq_refl).
Defined.

(* ------------------------------------------------------------------ *)
(** ** The hyphens of a new name *)

Lemma count_single (x : ascii) (s : str) :
  PyStr.count_from [x] s 0 = length (filter (Ascii.eqb x) s).
Proof.
  induction s as [|c s IH]; [reflexivity|].
  cbn [PyStr.count_from PyStr.startswith filter length Nat.sub].
  rewrite andb_true_r. destruct (Ascii.eqb x c); cbn [length]; rewrite IH;
    reflexivity.
Qed.

Lemma hyphens_app (a b : str) : hyphens (a ++ b) = hyphens a + hyphens b.
Proof.
  unfold hyphens, PyStr.count. cbn [lit list_ascii_of_string].
  rewrite !count_single, filter_app, length_app. reflexivity.
Qed.

Lemma hyphens_digits (l : str) :
  forallb PyStr.isdigit l = true -> hyphens l = 0.
Proof.
  intros H. unfold hyphens, PyStr.count. cbn [lit list_ascii_of_string].
  rewrite count_single.
  induction l as [|c l IH]; [reflexivity|].
  cbn [forallb] in H. apply andb_true_iff in H. destruct H as [Hc Hl].
  cbn [filter]. destruct (digit_is_not "-" c eq_refl Hc) as [E _].
  rewrite E. apply IH. exact Hl.
Qed.

Lemma not_in_digits (x : ascii) (l : str) :
  PyStr.isdigit x = false -> forallb PyStr.isdigit l = true -> ~ In x l.
Proof.
  intros Hx Hl I. rewrite forallb_forall in Hl. apply Hl in I. congruence.
Qed.

Lemma components_single (s : str) :
  ~ In "/"%char s -> s <> [] -> s <> lit "." -> PyPath.components s = [s].
Proof.
  intros N E D. unfold PyPath.components.
  rewrite (split_without_sep _ _ N). cbn [filter]. unfold str_eqb.
  destruct (str_eq_dec s []); [congruence|].
  destruct (str_eq_dec s (lit ".")); [congruence|]. reflexivity.
Qed.

(** X11. For a record of the parser whose camera id holds no slash, and a
    file name that holds none, the new name is
    [date_time_camid_name] in the file's own directory, and it holds two
    hyphens more than camera id and old name together: a later run takes
    the renamed file for already renamed exactly when neither the camera id
    nor the old name holds a hyphen, and would rename it again otherwise. *)
Theorem new_name_hyphens
    (banner_text : option str) (r : info) (args : arguments)
    (file_path : path) (c : str) :
  parse_banner_text banner_text = Ret (Info r) ->
  cam_id r = Some c ->
  ~ In "/"%char c ->
  ~ In "/"%char (name file_path) ->
  name (target_path args file_path r) =
  date r ++ lit "_" ++ time r ++ lit "_" ++ c ++ lit "_" ++ name file_path /\
  parent (target_path args file_path r) = parent file_path /\
  hyphens (name (target_path args file_path r)) =
  2 + hyphens c + hyphens (name file_path) /\
  (hyphens (name (target_path args file_path r)) = 2 <->
   hyphens c = 0 /\ hyphens (name file_path) = 0).
Proof.
  intros H Hc Nc Nn.
  destruct (parse_info_line _ _ H) as (t & _ & _ & t2 & _ & _ & _ & Hs).
  destruct (scan_line_inv _ _ _ Hs)
    as (a & b & c1 & d & e & f & g & h & a' & b' & c' & d' & e' & f'
        & _ & Hd & _ & Ht & _ & Ed & Et & _).
  set (s := date r ++ lit "_" ++ time r ++ lit "_" ++ c ++ lit "_"
            ++ name file_path).
  assert (Hyp : hyphens s = 2 + hyphens c + hyphens (name file_path)).
  { subst s. rewrite Ed, Et.
    change [e; f; g; h; "-"%char; a; b; "-"%char; c1; d]
      with ([e; f; g; h] ++ lit "-" ++ [a; b] ++ lit "-" ++ [c1; d]).
    rewrite !hyphens_app.
    rewrite (hyphens_digits [e; f; g; h]), (hyphens_digits [a; b]),
      (hyphens_digits [c1; d]), (hyphens_digits [a'; b'; c'; d'; e'; f']);
      try exact Ht;
      try (apply forallb_forall; intros x I;
           apply (proj1 (forallb_forall _ _) Hd); cbn [In] in *; tauto).
    change (hyphens (lit "-")) with 1. change (hyphens (lit "_")) with 0.
    lia. }
  assert (Ns : ~ In "/"%char s).
  { subst s. rewrite Ed, Et.
    change [e; f; g; h; "-"%char; a; b; "-"%char; c1; d]
      with ([e; f; g; h] ++ lit "-" ++ [a; b] ++ lit "-" ++ [c1; d]).
    intros I.
    repeat (apply in_app_or in I; destruct I as [I|I]);
      try (revert I; apply not_in_digits; [reflexivity|];
           first [ exact Ht
                 | apply forallb_forall; intros x I;
                   apply (proj1 (forallb_forall _ _) Hd);
                   cbn [In] in *; tauto ]);
      try (destruct I as [I|[]]; discriminate);
      contradiction. }
  assert (E1 : s <> []) by (subst s; rewrite Ed; discriminate).
  assert (E2 : s <> lit ".") by (subst s; rewrite Ed; discriminate).
  assert (T : target_path args file_path r =
              {| parent := parent file_path; name := s |}).
  { unfold target_path, resolved_cam_id. rewrite Hc. fold s.
    unfold PyPath.joinpath. rewrite (components_single s Ns E1 E2).
    reflexivity. }
  rewrite T. cbn [name parent].
  split; [reflexivity|]. split; [reflexivity|]. split; [exact Hyp|].
  rewrite Hyp. lia.
Qed.

(** X11 on a camera id with a hyphen: the new name holds three hyphens. *)
Lemma new_name_hyphens_example :
  parse_banner_text (Some (lit "CAM-7 06-09-2023 13:41:51")) =
  Ret (Info Sample.hyphen_info) /\
  name (target_path Example.execute Example.photo Sample.hyphen_info) =
  lit "2023-06-09_134151_CAM-7_IMG_0001.JPG" /\
  hyphens (name (target_path Example.execute Example.photo
                   Sample.hyphen_info)) = 3.
Proof.
  assert (P : parse_banner_text (Some (lit "CAM-7 06-09-2023 13:41:51")) =
              Ret (Info Sample.hyphen_info)) by (vm_compute; reflexivity).
  assert (N1 : ~ In "/"%char (lit "CAM-7")).
  { cbn. intros I. repeat (destruct I as [I|I]; [discriminate|]). exact I. }
  assert (N2 : ~ In "/"%char (name Example.photo)).
  { cbn. intros I. repeat (destruct I as [I|I]; [discriminate|]). exact I. }
  destruct (new_name_hyphens (Some (lit "CAM-7 06-09-2023 13:41:51"))
              Sample.hyphen_info Example.execute Example.photo (lit "CAM-7")
              P eq_refl N1 N2) as (Hn & _ & Hh & _).
  split; [exact P|]. split; [exact Hn | exact Hh].
Defined.

(* ------------------------------------------------------------------ *)
(** ** What a run prints *)

Lemma appends_bind {A B} (m : M A) (k : A -> M B) :
  appends_only m -> (forall a, appends_only (k a)) -> appends_only (bind m k).
Proof.
  intros Hm Hk w. destruct (Hm w) as [l1 E1].
  destruct (bind_cases m k w)
    as [(a & w1 & E & ->) | [(e & w1 & E & ->) | (w1 & E & ->)]];
    rewrite E in E1; cbn [snd] in *.
  - destruct (Hk a w1) as [l2 E2]. exists (l1 ++ l2).
    rewrite E2, E1, app_assoc. reflexivity.
  - eauto.
  - eauto.
Qed.

Lemma appends_quiet {A} (m : M A) :
  (forall w, stdout (snd (m w)) = stdout w) -> appends_only m.
Proof. intros H w. exists []. rewrite H, app_nil_r. reflexivity. Qed.

Lemma appends_print (l : line) : appends_only (print l).
Proof. intros w. exists [l]. reflexivity. Qed.

Lemma appends_debug_print (debug : bool) (l : line) :
  appends_only (debug_print debug l).
Proof.
  destruct debug; [apply appends_print | apply appends_quiet; reflexivity].
Qed.

Lemma appends_rename_file (src dst : path) :
  appends_only (rename_file src dst).
Proof.
  apply appends_quiet. intros w. unfold rename_file.
  repeat match goal with
         | |- context [if ?b then _ else _] => destruct b
         | |- context [match files w src with _ => _ end] =>
             destruct (files w src)
         end; reflexivity.
Qed.

Lemma appends_imwrite (p : path) (roi : Cv.region) :
  appends_only (imwrite p roi).
Proof.
  apply appends_quiet. intros w. unfold imwrite.
  destruct (Cv.is_empty roi); [reflexivity|].
  destruct (Cv.fits_jpeg roi); [|reflexivity].
  destruct (os_accepts w p); reflexivity.
Qed.

Ltac appends_step :=
  first
    [ apply appends_print
    | apply appends_debug_print
    | apply appends_rename_file
    | apply appends_imwrite
    | apply appends_quiet; reflexivity
    | apply appends_bind; [|intros ?]
    | match goal with
      | |- appends_only (match ?x with _ => _ end) => destruct x
      | |- appends_only (if ?b then _ else _) => destruct b
      end ].

Section Printing.

Variable image_to_string : Cv.gray -> option str.

Lemma region_of_interest_appends frame fraction debug :
  appends_only (region_of_interest frame fraction debug).
Proof. unfold region_of_interest. repeat appends_step. Qed.

Lemma banner_text_from_frame_appends frame fraction debug file_path :
  appends_only
    (banner_text_from_frame image_to_string frame fraction debug file_path).
Proof.
  unfold banner_text_from_frame.
  apply appends_bind; [apply region_of_interest_appends | intros roi].
  repeat appends_step.
Qed.

Lemma video_loop_appends stream frame_count frame_interval fraction debug :
  appends_only
    (video_loop image_to_string stream frame_count frame_interval
                fraction debug).
Proof.
  revert frame_count; induction stream as [|frame rest IH];
    intros frame_count; cbn [video_loop]; [appends_step|].
  apply appends_bind; [appends_step | intros r].
  destruct (r =? 0)%Z; [|apply IH].
  apply appends_bind; [apply banner_text_from_frame_appends | intros t].
  appends_step.
Qed.

Lemma extract_date_time_appends path_file debug :
  appends_only (extract_date_time image_to_string path_file debug).
Proof.
  unfold extract_date_time, banner_text_of,
    extract_banner_text_from_video, extract_banner_text_from_image.
  repeat first [ apply video_loop_appends
               | apply banner_text_from_frame_appends
               | appends_step ].
Qed.

(** A computation followed by the separator, when it returns, has the
    separator as its last line. *)
Lemma then_separator {A} (m : M A) (w w' : world) :
  appends_only m ->
  bind m (fun _ => print separator) w = (Ret tt, w') ->
  exists l, stdout w' = stdout w ++ l ++ [separator].
Proof.
  intros Hm H. destruct (Hm w) as [l E].
  destruct (bind_cases m (fun _ => print separator) w)
    as [(a & w1 & E1 & R) | [(e & w1 & E1 & R) | (w1 & E1 & R)]];
    rewrite R in H; try discriminate.
  rewrite E1 in E. cbn [snd] in E. unfold print in H. inversion H; subst.
  cbn [stdout]. exists l. rewrite E, app_assoc. reflexivity.
Qed.

End Printing.

(** X12. A run only adds lines to what was printed, and every file that is
    processed to the end (no exit, no exception) has the separator of thirty
    hyphens as its last line, whether a banner was found or not. *)
Theorem processed_file_ends_with_separator
    (image_to_string : Cv.gray -> option str) (args : arguments)
    (file_path : path) (w w' : world) :
  process_file image_to_string args file_path w = (Ret tt, w') ->
  exists l, stdout w' = stdout w ++ l ++ [separator].
Proof.
  unfold process_file. intros H.
  destruct (appends_debug_print (arg_debug args)
              (Dbg "file_path" [VPath file_path]) w) as [l0 E0].
  unfold bind at 1 in H. rewrite debug_print_returns in H.
  set (w0 := snd (debug_print (arg_debug args)
                    (Dbg "file_path" [VPath file_path]) w)) in *.
  destruct (extract_date_time_appends image_to_string file_path
              (arg_debug args) w0) as [l1 E1].
  unfold bind at 1 in H.
  destruct (extract_date_time image_to_string file_path (arg_debug args) w0)
    as [[[r|msg]| |] w1]; try discriminate; cbn [snd] in E1.
  - assert (S : exists l, stdout w' = stdout w1 ++ l ++ [separator]).
    { revert H.
      match goal with
      | |- bind ?m (fun x => bind (@?k x) _) w1 = _ -> _ =>
          intros H;
          apply (then_separator (bind m k) w1 w'); [repeat appends_step|];
          unfold bind in *;
          destruct (m w1) as [[[]| |] w2]; try discriminate; exact H
      end. }
    destruct S as [l2 E2]. exists (l0 ++ l1 ++ l2).
    rewrite E2, E1, E0, <- !app_assoc. reflexivity.
  - destruct (then_separator
                (print (Out (lit "Date and time not found in "
                             ++ PyPath.to_str file_path))) w1 w'
                (appends_print _) H) as [l2 E2].
    exists (l0 ++ l1 ++ l2).
    rewrite E2, E1, E0, <- !app_assoc. reflexivity.
Qed.

(* ------------------------------------------------------------------ *)
(** ** What [--debug] changes *)

Lemma alike_bind {A B} (m1 m2 : M A) (k1 k2 : A -> M B) :
  alike m1 m2 -> (forall a, alike (k1 a) (k2 a)) ->
  alike (bind m1 k1) (bind m2 k2).
Proof.
  intros Hm Hk w1 w2 D. destruct (Hm w1 w2 D) as [Ef Ed]. unfold bind.
  destruct (m1 w1) as [o1 w1'], (m2 w2) as [o2 w2']. cbn [fst snd] in *.
  subst o2. destruct o1 as [a|e|]; [apply Hk; exact Ed | |];
    (split; [reflexivity | exact Ed]).
Qed.

Lemma alike_pure {A} (m1 m2 : M A) (o : outcome A) :
  (forall w, fst (m1 w) = o /\ same_disk (snd (m1 w)) w) ->
  (forall w, fst (m2 w) = o /\ same_disk (snd (m2 w)) w) ->
  alike m1 m2.
Proof.
  intros H1 H2 w1 w2 [Df Dd].
  destruct (H1 w1) as [E1 [F1 G1]], (H2 w2) as [E2 [F2 G2]].
  split; [congruence|]. split; congruence.
Qed.

Lemma alike_ret {A} (a : A) : alike (ret a) (ret a).
Proof. apply (alike_pure _ _ (Ret a)); intros w; repeat split. Qed.

Lemma alike_lift {A} (o : outcome A) : alike (lift o) (lift o).
Proof. apply (alike_pure _ _ o); intros w; repeat split. Qed.

Lemma alike_sys_exit {A} : alike (@sys_exit A) (@sys_exit A).
Proof. apply (alike_pure _ _ SysExit); intros w; repeat split. Qed.

Lemma alike_print (l1 l2 : line) : alike (print l1) (print l2).
Proof. apply (alike_pure _ _ (Ret tt)); intros w; repeat split. Qed.

Lemma alike_debug_print (d1 d2 : bool) (l1 l2 : line) :
  alike (debug_print d1 l1) (debug_print d2 l2).
Proof.
  apply (alike_pure _ _ (Ret tt)); intros w; [destruct d1 | destruct d2];
    repeat split.
Qed.

Lemma alike_imread (p : path) : alike (imread p) (imread p).
Proof.
  intros w1 w2 [Df Dd]. unfold imread. cbn [fst snd]. rewrite Df.
  repeat split; assumption.
Qed.

Lemma alike_video_frames (p : path) : alike (video_frames p) (video_frames p).
Proof.
  intros w1 w2 [Df Dd]. unfold video_frames. cbn [fst snd]. rewrite Df.
  repeat split; assumption.
Qed.

Lemma alike_imwrite (p : path) (roi : Cv.region) :
  alike (imwrite p roi) (imwrite p roi).
Proof.
  intros w1 w2 [Df Dd]. unfold imwrite, os_accepts, same_disk. rewrite Dd.
  destruct (Cv.is_empty roi); [repeat split; assumption|].
  destruct (Cv.fits_jpeg roi); cbn [negb]; [|repeat split; assumption].
  destruct (is_dir w2 (parent p) && negb (is_dir w2 (PyPath.to_str p))
            && name_fits p);
    cbn [fst snd files is_dir]; rewrite ?Df; repeat split; assumption.
Qed.

Lemma alike_rename_file (src dst : path) :
  alike (rename_file src dst) (rename_file src dst).
Proof.
  intros w1 w2 [Df Dd]. unfold rename_file, same_disk. rewrite Df, Dd.
  repeat match goal with
         | |- context [if ?b then _ else _] => destruct b
         | |- context [match files w2 src with _ => _ end] =>
             destruct (files w2 src)
         end;
    cbn [fst snd files is_dir]; rewrite ?Df; repeat split; assumption.
Qed.

Ltac alike_step :=
  first
    [ apply alike_ret
    | apply alike_lift
    | apply alike_sys_exit
    | apply alike_print
    | apply alike_debug_print
    | apply alike_imread
    | apply alike_video_frames
    | apply alike_imwrite
    | apply alike_rename_file
    | apply alike_bind; [|intros ?]
    | match goal with
      | |- alike (match ?x with _ => _ end) (match ?x with _ => _ end) =>
          destruct x
      | |- alike (if ?b then _ else _) (if ?b then _ else _) => destruct b
      end ].

Section Debug.

Variable image_to_string : Cv.gray -> option str.
Variables d1 d2 : bool.

Lemma region_of_interest_alike frame fraction :
  alike (region_of_interest frame fraction d1)
        (region_of_interest frame fraction d2).
Proof. unfold region_of_interest. repeat alike_step. Qed.

Lemma banner_text_from_frame_alike frame fraction file_path :
  alike (banner_text_from_frame image_to_string frame fraction d1 file_path)
        (banner_text_from_frame image_to_string frame fraction d2 file_path).
Proof.
  unfold banner_text_from_frame.
  apply alike_bind; [apply region_of_interest_alike | intros roi].
  repeat alike_step.
Qed.

Lemma video_loop_alike stream frame_count frame_interval fraction :
  alike (video_loop image_to_string stream frame_count frame_interval
                    fraction d1)
        (video_loop image_to_string stream frame_count frame_interval
                    fraction d2).
Proof.
  revert frame_count; induction stream as [|frame rest IH];
    intros frame_count; cbn [video_loop]; [alike_step|].
  apply alike_bind; [alike_step | intros r].
  destruct (r =? 0)%Z; [|apply IH].
  apply alike_bind; [apply banner_text_from_frame_alike | intros t].
  alike_step.
Qed.

Lemma extract_date_time_alike path_file :
  alike (extract_date_time image_to_string path_file d1)
        (extract_date_time image_to_string path_file d2).
Proof.
  unfold extract_date_time, banner_text_of,
    extract_banner_text_from_video, extract_banner_text_from_image.
  repeat first [ apply video_loop_alike
               | apply banner_text_from_frame_alike
               | alike_step ].
Qed.

Lemma process_file_alike cam rename file_path :
  alike (process_file image_to_string
           {| arg_cam_id := cam; arg_rename := rename; arg_debug := d1 |}
           file_path)
        (process_file image_to_string
           {| arg_cam_id := cam; arg_rename := rename; arg_debug := d2 |}
           file_path).
Proof.
  unfold process_file. cbn [arg_cam_id arg_rename arg_debug].
  repeat first [ apply extract_date_time_alike | alike_step ].
Qed.

Lemma main_loop_alike cam rename files :
  alike (main_loop image_to_string
           {| arg_cam_id := cam; arg_rename := rename; arg_debug := d1 |}
           files)
        (main_loop image_to_string
           {| arg_cam_id := cam; arg_rename := rename; arg_debug := d2 |}
           files).
Proof.
  induction files as [|file_path rest IH]; cbn [main_loop]; [alike_step|].
  apply alike_bind; [apply process_file_alike | intros _; exact IH].
Qed.

End Debug.

(** X14. [--debug] changes nothing but the lines printed: with the flag or
    without it a run over the same files ends the same way (it returns,
    exits or raises the same exception) and leaves the same files. *)
Theorem debug_changes_only_the_output
    (image_to_string : Cv.gray -> option str) (cam : str) (rename : bool)
    (files_list : list path) (w : world) :
  fst (main_loop image_to_string
         {| arg_cam_id := cam; arg_rename := rename; arg_debug := true |}
         files_list w) =
  fst (main_loop image_to_string
         {| arg_cam_id := cam; arg_rename := rename; arg_debug := false |}
         files_list w) /\
  files (snd (main_loop image_to_string
                {| arg_cam_id := cam; arg_rename := rename; arg_debug := true |}
                files_list w)) =
  files (snd (main_loop image_to_string
                {| arg_cam_id := cam; arg_rename := rename; arg_debug := false |}
                files_list w)).
Proof.
  destruct (main_loop_alike image_to_string true false cam rename files_list
              w w (conj eq_refl eq_refl)) as [E [F _]].
  split; assumption.
Qed.

(* ------------------------------------------------------------------ *)
(** ** An executed rename *)

(** What [process_file] does once [extract_date_time] has returned a
    record. *)
Lemma process_file_after_record
    (image_to_string : Cv.gray -> option str) (args : arguments)
    (file_path : path) (w w1 : world) (r : info) :
  extract_date_time image_to_string file_path (arg_debug args)
    (snd (debug_print (arg_debug args) (Dbg "file_path" [VPath file_path]) w))
  = (Ret (Info r), w1) ->
  process_file image_to_string args file_path w =
  ((if (PyStr.count (lit "-") (name file_path) =? 2)%nat then
      print (Out (name file_path ++ lit " already renammed"))
    else if arg_rename args then
      rename_file file_path (target_path args file_path r) ;;
      print (Out (name file_path ++ lit " renamed to "
                  ++ name (target_path args file_path r)))
    else
      print (Out (lit "rename " ++ name file_path ++ lit " to "
                  ++ name (target_path args file_path r)))) ;;
   print separator)%prog
    (snd (debug_print (arg_debug args)
            (Dbg "temperature" [VOpt (temperature_c r); VOpt (temperature_f r)])
            w1)).
Proof.
  intros H. destruct (extract_date_time_info _ _ _ _ _ _ H) as (Hd & Ht & _).
  unfold process_file. unfold bind at 1.
  rewrite debug_print_returns. unfold bind at 1. rewrite H.
  unfold bind at 1. rewrite debug_print_returns.
  rewrite Hd, Ht. reflexivity.
Qed.

(** What [process_file] does with a record when the rename is executed and
    the system accepts the new path. *)
Lemma process_file_moves
    (image_to_string : Cv.gray -> option str) (args : arguments)
    (file_path : path) (w w1 : world) (r : info) (c : content) :
  extract_date_time image_to_string file_path (arg_debug args)
    (snd (debug_print (arg_debug args) (Dbg "file_path" [VPath file_path]) w))
  = (Ret (Info r), w1) ->
  hyphens (name file_path) <> 2 ->
  arg_rename args = true ->
  files w1 file_path = Some c ->
  os_accepts w1 (target_path args file_path r) = true ->
  exists l,
    process_file image_to_string args file_path w =
    (Ret tt,
     {| stdout := l ++ [Out (name file_path ++ lit " renamed to "
                             ++ name (target_path args file_path r));
                        separator];
        files := set_file (set_file (files w1) file_path None)
                   (target_path args file_path r) (Some c);
        is_dir := is_dir w1 |}).
Proof.
  intros H C R F D.
  rewrite (process_file_after_record _ _ _ _ _ _ H).
  apply Nat.eqb_neq in C. unfold hyphens in C. rewrite C, R.
  set (w2 := snd (debug_print (arg_debug args)
                      (Dbg "temperature"
                         [VOpt (temperature_c r); VOpt (temperature_f r)])
                      w1)).
  assert (F2 : files w2 = files w1 /\ is_dir w2 = is_dir w1).
  { subst w2. destruct (arg_debug args); split; reflexivity. }
  destruct F2 as [Ff Fd].
  exists (stdout w2). unfold bind at 1. unfold bind at 1.
  rewrite (rename_when_accepted file_path (target_path args file_path r) w2 c).
  - unfold print. cbn [stdout files is_dir]. rewrite Ff, Fd, <- app_assoc.
    reflexivity.
  - rewrite (os_accepts_same_dirs w1 w2 _ Fd). exact D.
  - rewrite Ff. exact F.
Qed.

(** X15. With [--rename], for a file whose banner gave a record, whose
    name does not hold exactly two hyphens and which exists after the
    extraction. If the system accepts the new path (its directory exists,
    it is not itself a directory, and the new name and the path are within
    the length limits and hold no NUL): the file is processed to the end,
    what it held after the extraction is now at the new path, nothing is
    left at the old path (when the two differ), every other file is as the
    extraction left it, and the last lines printed are the report of the
    rename and the separator. If the system does not accept the new path:
    [Path.rename] raises, processing ends with that exception and every
    file is as the extraction left it. *)
Theorem executed_rename_moves_the_file
    (image_to_string : Cv.gray -> option str) (args : arguments)
    (file_path : path) (w w1 : world) (r : info) (c : content) :
  extract_date_time image_to_string file_path (arg_debug args)
    (snd (debug_print (arg_debug args) (Dbg "file_path" [VPath file_path]) w))
  = (Ret (Info r), w1) ->
  hyphens (name file_path) <> 2 ->
  arg_rename args = true ->
  files w1 file_path = Some c ->
  (os_accepts w1 (target_path args file_path r) = true ->
   exists w',
     process_file image_to_string args file_path w = (Ret tt, w') /\
     files w' (target_path args file_path r) = Some c /\
     (target_path args file_path r <> file_path -> files w' file_path = None) /\
     (forall q, q <> file_path -> q <> target_path args file_path r ->
                files w' q = files w1 q) /\
     exists l,
       stdout w' =
       l ++ [Out (name file_path ++ lit " renamed to "
                  ++ name (target_path args file_path r));
             separator]) /\
  (os_accepts w1 (target_path args file_path r) = false ->
   exists e w',
     process_file image_to_string args file_path w = (Throw e, w') /\
     files w' = files w1).
Proof.
  intros H C R F. split.
  - intros D.
    destruct (process_file_moves image_to_string args file_path w w1 r c
                H C R F D) as [l E].
    eexists. split; [exact E|]. cbn [files stdout].
    split; [|split; [|split]].
    + unfold set_file. destruct (path_eq_dec _ _); congruence.
    + intros N. unfold set_file.
      destruct (path_eq_dec file_path (target_path args file_path r));
        [congruence|].
      destruct (path_eq_dec file_path file_path); congruence.
    + intros q N1 N2. unfold set_file.
      destruct (path_eq_dec q (target_path args file_path r)); [congruence|].
      destruct (path_eq_dec q file_path); [congruence|].
      reflexivity.
    + exists l. reflexivity.
  - intros D.
    rewrite (process_file_after_record _ _ _ _ _ _ H).
    apply Nat.eqb_neq in C. unfold hyphens in C. rewrite C, R.
    set (w2 := snd (debug_print (arg_debug args)
                      (Dbg "temperature"
                         [VOpt (temperature_c r); VOpt (temperature_f r)])
                      w1)).
    assert (F2 : files w2 = files w1 /\ is_dir w2 = is_dir w1).
    { subst w2. destruct (arg_debug args); split; reflexivity. }
    destruct F2 as [Ff Fd].
    destruct (rename_when_refused file_path (target_path args file_path r) w2)
      as [e E].
    { rewrite (os_accepts_same_dirs w1 w2 _ Fd). exact D. }
    exists e, w2. split; [|exact Ff].
    unfold bind at 1. unfold bind at 1. rewrite E. reflexivity.
Qed.

(** X16. With [--rename], a ".jpeg" image whose banner is read is lost,
    when the banner crop is not empty and within what the JPEG encoder
    takes, and the system accepts both the image's own path for the crop
    and the new path for the rename: the
    extraction first writes the banner crop over the image, and the rename
    then moves that crop to the new name. After the file is processed the
    new path holds the crop only and the old path holds nothing. *)
Theorem renaming_a_jpeg_keeps_only_the_crop
    (image_to_string : Cv.gray -> option str) (args : arguments)
    (file_path : path) (w w1 : world) (frame : Cv.frame) (roi : Cv.region)
    (r : info) :
  PyPath.suffix file_path = lit ".jpeg" ->
  files w file_path = Some (Still frame) ->
  fst (region_of_interest frame F64.lit_0_15 (arg_debug args) w) = Ret roi ->
  Cv.is_empty roi = false ->
  Cv.fits_jpeg roi = true ->
  os_accepts w file_path = true ->
  extract_date_time image_to_string file_path (arg_debug args)
    (snd (debug_print (arg_debug args) (Dbg "file_path" [VPath file_path]) w))
  = (Ret (Info r), w1) ->
  hyphens (name file_path) <> 2 ->
  arg_rename args = true ->
  os_accepts w1 (target_path args file_path r) = true ->
  target_path args file_path r <> file_path ->
  fst (process_file image_to_string args file_path w) = Ret tt /\
  files (snd (process_file image_to_string args file_path w))
        (target_path args file_path r) = Some (Still (Cv.Reread roi)) /\
  files (snd (process_file image_to_string args file_path w)) file_path = None.
Proof.
  intros Sx Hf Hr He Hj Ha H C R D N.
  assert (Hs : is_still file_path = true).
  { unfold is_still. rewrite Sx. reflexivity. }
  assert (F1 : files w1 file_path = Some (Still (Cv.Reread roi))).
  { pose proof (extract_date_time_writes image_to_string file_path
                  (arg_debug args) frame file_path roi
                  (snd (debug_print (arg_debug args)
                          (Dbg "file_path" [VPath file_path]) w)) Hs) as Wr.
    rewrite H in Wr. cbn [snd] in Wr. rewrite Wr.
    - unfold set_file. destruct (path_eq_dec file_path file_path); congruence.
    - rewrite keeps_files_debug_print. exact Hf.
    - rewrite <- Hr. apply region_of_interest_fst.
    - exact He.
    - exact Hj.
    - apply with_suffix_same. exact Sx.
    - rewrite (os_accepts_same_dirs w); [exact Ha|].
      apply keeps_dirs_debug_print. }
  destruct (process_file_moves image_to_string args file_path w w1 r _
              H C R F1 D) as [l E].
  rewrite E. cbn [fst snd files]. unfold set_file.
  split; [reflexivity|]. split.
  - destruct (path_eq_dec _ _); congruence.
  - destruct (path_eq_dec file_path (target_path args file_path r));
      [congruence|].
    destruct (path_eq_dec file_path file_path); congruence.
Qed.

(* ------------------------------------------------------------------ *)
(** ** The file-loop properties on the example directory *)

(** X8 on the two-frame video. *)
Lemma video_processing_writes_nothing_example :
  is_video Example.clip = true /\
  files (snd (extract_date_time Example.reads_banner Example.clip
                (arg_debug Example.dry_run) Example.world0)) =
  files Example.world0 /\
  files (snd (process_file Example.reads_banner Example.dry_run Example.clip
                Example.world0)) = files Example.world0.
Proof.
  split; [reflexivity|].
  destruct (video_processing_writes_nothing Example.reads_banner
              Example.dry_run Example.clip Example.world0 eq_refl) as [A B].
  split; [exact A | exact (B eq_refl)].
Defined.

(** X9: a dry run on "IMG_0001.JPG" leaves "IMG_0002.jpeg" alone. *)
Lemma dry_run_touches_only_crop_target_example :
  arg_rename Example.dry_run = false /\
  PyPath.with_suffix Example.photo (lit ".jpeg") <> Ret Example.jpeg /\
  files (snd (process_file Example.reads_banner Example.dry_run Example.photo
                Example.world0)) Example.jpeg =
  files Example.world0 Example.jpeg.
Proof.
  assert (N : PyPath.with_suffix Example.photo (lit ".jpeg")
              <> Ret Example.jpeg).
  { intros E. vm_compute in E. discriminate. }
  split; [reflexivity|]. split; [exact N|].
  exact (dry_run_touches_only_crop_target Example.reads_banner
           Example.dry_run Example.photo Example.jpeg Example.world0
           eq_refl N).
Defined.

(** X12 on a file with a banner. *)
Lemma processed_file_ends_with_separator_example :
  process_file Example.reads_banner Example.dry_run Example.photo
    Example.world0 =
  (Ret tt,
   snd (process_file Example.reads_banner Example.dry_run Example.photo
          Example.world0)) /\
  exists l,
    stdout (snd (process_file Example.reads_banner Example.dry_run
                   Example.photo Example.world0)) =
    stdout Example.world0 ++ l ++ [separator].
Proof.
  assert (E : process_file Example.reads_banner Example.dry_run Example.photo
                Example.world0 =
              (Ret tt,
               snd (process_file Example.reads_banner Example.dry_run
                      Example.photo Example.world0)))
    by (vm_compute; reflexivity).
  split; [exact E|].
  exact (processed_file_ends_with_separator Example.reads_banner
           Example.dry_run Example.photo Example.world0 _ E).
Defined.

(** X13 on a video path that holds no video. *)
Lemma video_without_frames_has_no_banner_example :
  is_video (Example.in_pics "VID_0009.avi") = true /\
  fst (video_frames (Example.in_pics "VID_0009.avi") Example.world0) = Ret [] /\
  extract_date_time Example.reads_banner (Example.in_pics "VID_0009.avi")
    false Example.world0 = (Ret (Error []), Example.world0).
Proof.
  split; [reflexivity|]. split; [reflexivity|].
  exact (video_without_frames_has_no_banner Example.reads_banner
           (Example.in_pics "VID_0009.avi") false Example.world0
           eq_refl eq_refl).
Defined.

Lemma extract_photo_record :
  extract_date_time Example.reads_banner Example.photo
    (arg_debug Example.execute)
    (snd (debug_print (arg_debug Example.execute)
            (Dbg "file_path" [VPath Example.photo]) Example.world0)) =
  (Ret (Info Sample.banner_info),
   snd (extract_date_time Example.reads_banner Example.photo false
          Example.world0)).
Proof. vm_compute. reflexivity. Qed.

Lemma extract_jpeg_record :
  extract_date_time Example.reads_banner Example.jpeg
    (arg_debug Example.execute)
    (snd (debug_print (arg_debug Example.execute)
            (Dbg "file_path" [VPath Example.jpeg]) Example.world0)) =
  (Ret (Info Sample.banner_info),
   snd (extract_date_time Example.reads_banner Example.jpeg false
          Example.world0)).
Proof. vm_compute. reflexivity. Qed.

(** X15 on "IMG_0001.JPG": the photo moves to its new name. *)
Lemma executed_rename_moves_the_file_example :
  hyphens (name Example.photo) <> 2 /\
  files (snd (process_file Example.reads_banner Example.execute Example.photo
                Example.world0))
        (Example.in_pics "2023-06-09_134151_FOSA_01_IMG_0001.JPG") =
  Some (Still Example.large_frame) /\
  files (snd (process_file Example.reads_banner Example.execute Example.photo
                Example.world0)) Example.photo = None.
Proof.
  assert (C : hyphens (name Example.photo) <> 2) by discriminate.
  split; [exact C|].
  destruct (executed_rename_moves_the_file Example.reads_banner
              Example.execute Example.photo Example.world0 _
              Sample.banner_info (Still Example.large_frame)
              extract_photo_record C eq_refl eq_refl) as [Mv _].
  destruct (Mv eq_refl) as (w' & E & A & B & _).
  rewrite E. cbn [snd]. split; [exact A|].
  apply B. intros X. apply (f_equal name) in X. vm_compute in X. discriminate.
Defined.

(** X16 on "IMG_0002.jpeg": after the rename only the crop is left. *)
Lemma renaming_a_jpeg_keeps_only_the_crop_example :
  PyPath.suffix Example.jpeg = lit ".jpeg" /\
  files Example.world0 Example.jpeg = Some (Still Example.small_frame) /\
  files (snd (process_file Example.reads_banner Example.execute Example.jpeg
                Example.world0))
        (Example.in_pics "2023-06-09_134151_FOSA_01_IMG_0002.jpeg") =
  Some (Still (Cv.Reread (Cv.Slice Example.small_frame 918 1080 0 1920))) /\
  files (snd (process_file Example.reads_banner Example.execute Example.jpeg
                Example.world0)) Example.jpeg = None.
Proof.
  split; [reflexivity|]. split; [reflexivity|].
  assert (N : target_path Example.execute Example.jpeg Sample.banner_info
              <> Example.jpeg).
  { intros X. apply (f_equal name) in X. vm_compute in X. discriminate. }
  destruct (renaming_a_jpeg_keeps_only_the_crop Example.reads_banner
              Example.execute Example.jpeg Example.world0 _
              Example.small_frame
              (Cv.Slice Example.small_frame 918 1080 0 1920)
              Sample.banner_info
              eq_refl eq_refl eq_refl eq_refl eq_refl eq_refl
              extract_jpeg_record
              ltac:(discriminate) eq_refl eq_refl N)
    as (_ & A & B).
  split; [exact A | exact B].
Defined.

(** C10 on "IMG_0002.jpeg": a dry run leaves the banner crop in the place
    of the image. *)
Lemma still_image_crop_is_written_example :
  is_still Example.jpeg = true /\
  files Example.world0 Example.jpeg = Some (Still Example.small_frame) /\
  Cv.is_empty (Cv.Slice Example.small_frame 918 1080 0 1920) = false /\
  Cv.fits_jpeg (Cv.Slice Example.small_frame 918 1080 0 1920) = true /\
  os_accepts Example.world0 Example.jpeg = true /\
  files (snd (process_file Example.reads_banner Example.dry_run Example.jpeg
                Example.world0)) Example.jpeg =
  Some (Still (Cv.Reread (Cv.Slice Example.small_frame 918 1080 0 1920))).
Proof.
  split; [reflexivity|]. split; [reflexivity|]. split; [reflexivity|].
  split; [reflexivity|]. split; [reflexivity|].
  destruct (still_image_crop_is_written Example.reads_banner Example.dry_run
              Example.jpeg Example.jpeg Example.world0 Example.small_frame
              (Cv.Slice Example.small_frame 918 1080 0 1920)
              eq_refl eq_refl eq_refl eq_refl eq_refl eq_refl eq_refl)
    as (_ & B & _).
  exact (B eq_refl).
Defined.

(** C5 on "IMG_0001.JPG" with a recognizer that raises on the crop of the
    large frame: the run ends at the photo, the two files after it are not
    processed. *)
Lemma recognizer_error_ends_run_example :
  sampled Example.world0 Example.photo Example.large_frame /\
  Example.fails_on_large
    (Cv.Gray (Cv.Slice (Cv.Resized Example.large_frame 1280 960)
                816 960 0 1280)) = None /\
  exists w',
    process_file Example.fails_on_large Example.dry_run Example.photo
      Example.world0 = (SysExit, w') /\
    main_loop Example.fails_on_large Example.dry_run
      [Example.photo; Example.jpeg; Example.clip] Example.world0 =
    (SysExit, w') /\
    exists l, stdout w' = l ++ [Out (lit "Tesseract error")].
Proof.
  assert (S : sampled Example.world0 Example.photo Example.large_frame).
  { left. split; reflexivity. }
  split; [exact S|]. split; [reflexivity|].
  exact (recognizer_error_ends_run Example.fails_on_large Example.dry_run
           Example.photo [Example.jpeg; Example.clip] Example.world0
           Example.large_frame
           (Cv.Slice (Cv.Resized Example.large_frame 1280 960) 816 960 0 1280)
           S eq_refl eq_refl eq_refl).
Defined.
